(** * The credential and schedule store of the GoodDollar helper backend

    A shallow embedding of the stateful part of [src/db_init.py]: the five
    tables declared by [run] and the [do_POST] branches that read and write
    them ([/api/permanent-verified], [/api/auto-claim-schedule],
    [/api/save-keys], [/api/fetch-keys], [/api/clear-keys],
    [/api/check-key-status], [/api/toggle-key-status]).

    Conventions of the model.
    - A table is the list of its rows in insertion order; the uniqueness
      constraints are exactly the ones of the [CREATE TABLE] statements.
    - Every SQL statement of a handler is given its relational meaning over
      that schema ([INSERT OR IGNORE], [ON CONFLICT ... DO UPDATE],
      [ON CONFLICT ... DO NOTHING], [DELETE], [SELECT]).
    - A connection works on a snapshot of the store; [commit] publishes it.
      A handler that raises before [commit] (or calls [rollback]) leaves the
      store as it was.
    - A time stamp is an integer number of microseconds.  The readings of
      [datetime.now()] and of the engine's [CURRENT_TIMESTAMP] are inputs of
      the handlers.
    - Text is a [string] of bytes; [str.lower] is modelled on ASCII letters.
    - The decoded request body [data] keeps, for every field a handler
      inspects, the Python value found there; the three tags of a save
      request are text. *)

From Stdlib Require Import ZArith List String Ascii Bool Arith Lia.
From Stdlib Require Import Sorted Permutation DecimalString.
Import ListNotations.
Local Open Scope string_scope.
Local Open Scope list_scope.
Set Warnings "-register-all".

(** ** Python values and the string operations the handlers use

    The values [json.loads] can put in the request dictionary; a JSON number
    is taken to be an integer. *)

Inductive pyval : Type :=
| PyNone
| PyBool (b : bool)
| PyInt (n : Z)
| PyStr (s : string)
| PyList (l : list pyval)
| PyDict (l : list (string * pyval)).

Inductive exn : Type :=
| ValueError (msg : string)
| AttributeError (msg : string)
| TypeError (msg : string).

(** [str(e)] *)
Definition str (e : exn) : string :=
  match e with
  | ValueError m => m
  | AttributeError m => m
  | TypeError m => m
  end.

(** [s[:n]] *)
Fixpoint slice_to (n : nat) (s : string) : string :=
  match n, s with
  | S k, String c r => String c (slice_to k r)
  | _, _ => EmptyString
  end.

Definition type_name (v : pyval) : string :=
  match v with
  | PyNone => "NoneType"
  | PyBool _ => "bool"
  | PyInt _ => "int"
  | PyStr _ => "str"
  | PyList _ => "list"
  | PyDict _ => "dict"
  end.

Definition no_attribute (v : pyval) (attr : string) : exn :=
  AttributeError
    (String.append "'" (String.append (type_name v)
       (String.append "' object has no attribute '" (String.append attr "'")))).

Definition lower_char (c : ascii) : ascii :=
  let n := nat_of_ascii c in
  if (65 <=? n)%nat && (n <=? 90)%nat then ascii_of_nat (n + 32) else c.

(** [s.lower()] *)
Fixpoint lower (s : string) : string :=
  match s with
  | EmptyString => EmptyString
  | String c r => String (lower_char c) (lower r)
  end.

(** [s.startswith(p)] *)
Definition startswith (s p : string) : bool := String.prefix p s.

(** [v.lower()] on an arbitrary value: only [str] has the method. *)
Definition py_lower (v : pyval) : exn + string :=
  match v with
  | PyStr s => inr (lower s)
  | _ => inl (no_attribute v "lower")
  end.

(** [v.encode()] *)
Definition py_encode (v : pyval) : exn + string :=
  match v with
  | PyStr s => inr s
  | _ => inl (no_attribute v "encode")
  end.

(** Truth value of [v] in a condition. *)
Definition truthy (v : pyval) : bool :=
  match v with
  | PyNone => false
  | PyBool b => b
  | PyInt n => negb (n =? 0)%Z
  | PyStr s => negb (s =? "")
  | PyList l => match l with [] => false | _ :: _ => true end
  | PyDict l => match l with [] => false | _ :: _ => true end
  end.

(** [len(v)] *)
Definition py_len (v : pyval) : exn + nat :=
  match v with
  | PyStr s => inr (String.length s)
  | PyList l => inr (List.length l)
  | PyDict l => inr (List.length l)
  | _ => inl (TypeError
                (String.append "object of type '"
                   (String.append (type_name v) "' has no len()")))
  end.

(** [isinstance(v, list)] *)
Definition is_list (v : pyval) : bool :=
  match v with PyList _ => true | _ => false end.

(** [v == s] for a string literal [s]. *)
Definition eq_str (v : pyval) (s : string) : bool :=
  match v with PyStr t => (t =? s) | _ => false end.

(** [s in l] for a list of string literals. *)
Definition str_in (s : string) (l : list string) : bool :=
  existsb (String.eqb s) l.

(** The decoded JSON object of a request; [None] is an absent key. *)
Record Data : Type := {
  d_address : option pyval;
  d_network : option pyval;
  d_action : option pyval;
  d_password : option pyval;
  d_keys : option pyval;
  d_source : option string;
  d_device : option string;
  d_status : option string
}.

(** [data.get(key, default)] *)
Definition get {A : Type} (field : option A) (default : A) : A :=
  match field with Some v => v | None => default end.

(** ** The five tables *)

Module SecretKeys.
Record row : Type := {
  id : Z;
  private_key : option string;
  source : option string;
  device : option string;
  status : option string;
  created_at : option Z
}.
End SecretKeys.

Module AppSettings.
Record row : Type := {
  id : Z;
  key : option string;
  value : option string
}.
End AppSettings.

Module PermanentVerified.
Record row : Type := {
  address : string;
  verified_at : option Z;
  expires_at : option Z
}.
End PermanentVerified.

Module AutoClaimSchedule.
Record row : Type := {
  address : string;
  network : string;
  enabled : option bool;
  last_claim : option Z;
  next_claim_time : option Z
}.
End AutoClaimSchedule.

Module DisabledKeys.
Record row : Type := {
  key_address : string;
  reason : option string
}.
End DisabledKeys.

Record Store : Type := {
  secret_keys : list SecretKeys.row;
  secret_keys_id_seq : Z;
  app_settings : list AppSettings.row;
  permanent_verified : list PermanentVerified.row;
  auto_claim_schedule : list AutoClaimSchedule.row;
  disabled_keys : list DisabledKeys.row
}.

Definition empty_store : Store :=
  {| secret_keys := []; secret_keys_id_seq := 1; app_settings := [];
     permanent_verified := []; auto_claim_schedule := [];
     disabled_keys := [] |}.

Definition with_secret_keys (st : Store) (t : list SecretKeys.row) (seq : Z) : Store :=
  {| secret_keys := t; secret_keys_id_seq := seq;
     app_settings := app_settings st;
     permanent_verified := permanent_verified st;
     auto_claim_schedule := auto_claim_schedule st;
     disabled_keys := disabled_keys st |}.

Definition with_permanent_verified (st : Store) (t : list PermanentVerified.row) : Store :=
  {| secret_keys := secret_keys st; secret_keys_id_seq := secret_keys_id_seq st;
     app_settings := app_settings st;
     permanent_verified := t;
     auto_claim_schedule := auto_claim_schedule st;
     disabled_keys := disabled_keys st |}.

Definition with_auto_claim_schedule (st : Store) (t : list AutoClaimSchedule.row) : Store :=
  {| secret_keys := secret_keys st; secret_keys_id_seq := secret_keys_id_seq st;
     app_settings := app_settings st;
     permanent_verified := permanent_verified st;
     auto_claim_schedule := t;
     disabled_keys := disabled_keys st |}.

Definition with_disabled_keys (st : Store) (t : list DisabledKeys.row) : Store :=
  {| secret_keys := secret_keys st; secret_keys_id_seq := secret_keys_id_seq st;
     app_settings := app_settings st;
     permanent_verified := permanent_verified st;
     auto_claim_schedule := auto_claim_schedule st;
     disabled_keys := t |}.

(** ** The world a handler runs in

    [reachable] tells whether [get_db_connection] obtains a connection;
    [connections] counts the attempts made so far, so that "the store was
    not touched" can be read off the world. *)

Record World : Type := {
  db : Store;
  reachable : bool;
  connections : nat
}.

Definition set_db (w : World) (st : Store) : World :=
  {| db := st; reachable := reachable w; connections := connections w |}.

(** ** Handlers as computations that may raise *)

Definition M (A : Type) : Type := World -> (exn + A) * World.

Definition ret {A : Type} (a : A) : M A := fun w => (inr a, w).

Definition raise {A : Type} (e : exn) : M A := fun w => (inl e, w).

Definition bind {A B : Type} (m : M A) (k : A -> M B) : M B :=
  fun w =>
    match m w with
    | (inl e, w') => (inl e, w')
    | (inr a, w') => k a w'
    end.

Definition lift {A : Type} (r : exn + A) : M A := fun w => (r, w).

Declare Scope py_scope.
Delimit Scope py_scope with py.
Notation "x <- m ;; k" := (bind m (fun x => k))
  (at level 61, m at next level, right associativity) : py_scope.
Notation "m ;; k" := (bind m (fun _ => k))
  (at level 61, right associativity) : py_scope.

(** [get_db_connection()]: a snapshot of the store, or [None]. *)
Definition get_db_connection : M (option Store) :=
  fun w =>
    (inr (if reachable w then Some (db w) else None),
     {| db := db w; reachable := reachable w; connections := S (connections w) |}).

(** [conn.commit()] for a connection whose snapshot has become [st]. *)
Definition commit (st : Store) : M unit := fun w => (inr tt, set_db w st).

(** ** Responses *)

Record KeyView : Type := {
  kv_key : option string;
  kv_added : option Z;
  kv_source : option string;
  kv_device : option string;
  kv_status : option string
}.

Inductive Payload : Type :=
| PError (error : string)
| PFailure (error : string)
| PVerified (address : string)
| PVerifiedList (addresses : list (string * option Z))
| PScheduled (address network : string)
| PSaved (saved : nat)
| PKeys (keys : list KeyView)
| PDeleted (deleted : nat)
| PKeyStatus (disabled : bool) (address : string)
| PToggled (status address : string).

Inductive Reply : Type :=
| Sent (code : Z) (payload : Payload)
| Silent.

(** [try: body  except Exception as e: handler e] *)
Definition try_except (body : M Reply) (handler : exn -> Reply) : World -> Reply * World :=
  fun w =>
    match body w with
    | (inr r, w') => (r, w')
    | (inl e, w') => (handler e, w')
    end.

(** ** The SQL statements of the handlers *)

(** [INSERT OR IGNORE INTO secret_keys (private_key, source, device, status)
    VALUES (?, ?, ?, ?)].  The statement supplies neither [id] nor
    [created_at]: [id] is the next value of the table's sequence and
    [created_at] the engine's [CURRENT_TIMESTAMP].  The row is ignored when it
    violates a uniqueness constraint of the table; the only one declared is
    the primary key [id].  The second component is [cursor.rowcount]. *)
Definition insert_or_ignore_secret_key
    (current_timestamp : Z) (key src dev stat : string)
    (t : list SecretKeys.row * Z) : (list SecretKeys.row * Z) * nat :=
  let '(rows, seq) := t in
  let r := {| SecretKeys.id := seq;
              SecretKeys.private_key := Some key;
              SecretKeys.source := Some src;
              SecretKeys.device := Some dev;
              SecretKeys.status := Some stat;
              SecretKeys.created_at := Some current_timestamp |} in
  if existsb (fun x => (SecretKeys.id x =? SecretKeys.id r)%Z) rows
  then ((rows, (seq + 1)%Z), 0)
  else ((rows ++ [r], (seq + 1)%Z), 1).

(** Order of two nullable time stamps, [NULL] below every value. *)
Definition ts_ltb (a b : option Z) : bool :=
  match a, b with
  | None, None => false
  | None, Some _ => true
  | Some _, None => false
  | Some x, Some y => (x <? y)%Z
  end.

Section OrderBy.
  Variable A : Type.
  Variable col : A -> option Z.

Fixpoint insert_desc (r : A) (l : list A) : list A :=
  match l with
  | [] => [r]
  | x :: xs => if ts_ltb (col x) (col r) then r :: l else x :: insert_desc r xs
  end.

(** [ORDER BY col DESC] *)
Definition order_by_desc (l : list A) : list A := fold_right insert_desc [] l.

End OrderBy.
Arguments insert_desc {A} col r l.
Arguments order_by_desc {A} col l.

(** [SELECT private_key, created_at, source, device, status FROM secret_keys
    ORDER BY created_at DESC] *)
Definition select_secret_keys (st : Store) : list SecretKeys.row :=
  order_by_desc SecretKeys.created_at (secret_keys st).

(** [DELETE FROM secret_keys]; the second component is [cursor.rowcount]. *)
Definition delete_secret_keys (st : Store) : Store * nat :=
  (with_secret_keys st [] (secret_keys_id_seq st), List.length (secret_keys st)).

(** The [DO UPDATE SET verified_at = CURRENT_TIMESTAMP, expires_at = NULL]
    clause, applied to the stored row [x] while scanning for [addr]. *)
Definition on_conflict_permanent_verified
    (addr : string) (current_timestamp : Z)
    (x : PermanentVerified.row) : PermanentVerified.row :=
  if PermanentVerified.address x =? addr
  then {| PermanentVerified.address := PermanentVerified.address x;
          PermanentVerified.verified_at := Some current_timestamp;
          PermanentVerified.expires_at := None |}
  else x.

(** [INSERT INTO permanent_verified (address, verified_at, expires_at)
    VALUES (?, ?, NULL) ON CONFLICT (address) DO UPDATE
    SET verified_at = CURRENT_TIMESTAMP, expires_at = NULL] *)
Definition upsert_permanent_verified
    (addr : string) (verified : Z) (current_timestamp : Z)
    (t : list PermanentVerified.row) : list PermanentVerified.row :=
  if existsb (fun x => PermanentVerified.address x =? addr) t
  then map (on_conflict_permanent_verified addr current_timestamp) t
  else t ++ [{| PermanentVerified.address := addr;
                PermanentVerified.verified_at := Some verified;
                PermanentVerified.expires_at := None |}].

(** [SELECT address, verified_at FROM permanent_verified
    ORDER BY verified_at DESC] *)
Definition select_permanent_verified (st : Store) : list (string * option Z) :=
  map (fun r => (PermanentVerified.address r, PermanentVerified.verified_at r))
      (order_by_desc PermanentVerified.verified_at (permanent_verified st)).

Definition same_schedule (addr net : string) (x : AutoClaimSchedule.row) : bool :=
  (AutoClaimSchedule.address x =? addr) && (AutoClaimSchedule.network x =? net).

(** The [DO UPDATE SET enabled = EXCLUDED.enabled,
    next_claim_time = EXCLUDED.next_claim_time] clause, applied to the stored
    row [x] while scanning for the key of [excluded]. *)
Definition on_conflict_auto_claim_schedule
    (excluded x : AutoClaimSchedule.row) : AutoClaimSchedule.row :=
  if same_schedule (AutoClaimSchedule.address excluded)
       (AutoClaimSchedule.network excluded) x
  then {| AutoClaimSchedule.address := AutoClaimSchedule.address x;
          AutoClaimSchedule.network := AutoClaimSchedule.network x;
          AutoClaimSchedule.enabled := AutoClaimSchedule.enabled excluded;
          AutoClaimSchedule.last_claim := AutoClaimSchedule.last_claim x;
          AutoClaimSchedule.next_claim_time :=
            AutoClaimSchedule.next_claim_time excluded |}
  else x.

(** [INSERT INTO auto_claim_schedule
    (address, network, enabled, last_claim, next_claim_time)
    VALUES (?, ?, ?, ?, ?) ON CONFLICT (address, network)
    DO UPDATE SET enabled = EXCLUDED.enabled,
                  next_claim_time = EXCLUDED.next_claim_time] *)
Definition upsert_auto_claim_schedule
    (excluded : AutoClaimSchedule.row)
    (t : list AutoClaimSchedule.row) : list AutoClaimSchedule.row :=
  if existsb (same_schedule (AutoClaimSchedule.address excluded)
                (AutoClaimSchedule.network excluded)) t
  then map (on_conflict_auto_claim_schedule excluded) t
  else t ++ [excluded].

(** [SELECT * FROM disabled_keys WHERE key_address = ?] then [fetchone()] *)
Definition select_disabled_key (addr : string) (st : Store) : option DisabledKeys.row :=
  find (fun x => DisabledKeys.key_address x =? addr) (disabled_keys st).

(** [INSERT INTO disabled_keys (key_address, reason) VALUES (?, ?)
    ON CONFLICT (key_address) DO NOTHING] *)
Definition insert_disabled_key
    (addr why : string) (t : list DisabledKeys.row) : list DisabledKeys.row :=
  if existsb (fun x => DisabledKeys.key_address x =? addr) t
  then t
  else t ++ [{| DisabledKeys.key_address := addr;
                DisabledKeys.reason := Some why |}].

(** [DELETE FROM disabled_keys WHERE key_address = ?] *)
Definition delete_disabled_key
    (addr : string) (t : list DisabledKeys.row) : list DisabledKeys.row :=
  filter (fun x => negb (DisabledKeys.key_address x =? addr)) t.

(** ** Clocks *)

(** The clock readings a request observes: [datetime_now k] is the value of
    the [k]-th call of [datetime.now()] made by the handler, and
    [current_timestamp k] the engine's [CURRENT_TIMESTAMP] at the [k]-th
    statement position of the request. *)
Record Clock : Type := {
  datetime_now : nat -> Z;
  current_timestamp : nat -> Z
}.

(** [timedelta(days=d, hours=h, minutes=m)] in microseconds. *)
Definition timedelta (days hours minutes : Z) : Z :=
  (((days * 24 + hours) * 60 + minutes) * 60 * 1000000)%Z.

(** ** The [do_POST] branches *)

Local Open Scope py_scope.

(** [not address or not address.startswith('0x')] *)
Definition invalid_address (address : string) : bool :=
  (address =? "") || negb (startswith address "0x").

(** The [except Exception as e] clause of the two handlers that answer
    [{'success': False, 'error': str(e)[:100]}]. *)
Definition failure_500 (e : exn) : Reply :=
  Sent 500 (PFailure (slice_to 100 (str e))).

(** The [except Exception as e] clause answering [{'error': str(e)[:100]}]. *)
Definition error_500 (e : exn) : Reply :=
  Sent 500 (PError (slice_to 100 (str e))).

(** [/api/permanent-verified] *)
Definition post_permanent_verified (ck : Clock) (data : Data) : World -> Reply * World :=
  try_except
    (address <- lift (py_lower (get (d_address data) (PyStr ""))) ;;
     let action := get (d_action data) (PyStr "add") in
     if invalid_address address then raise (ValueError "Invalid address") else
     conn <- get_db_connection ;;
     match conn with
     | None => raise (ValueError "Database connection failed")
     | Some st =>
         if eq_str action "add" then
           commit (with_permanent_verified st
                     (upsert_permanent_verified (lower address)
                        (datetime_now ck 0) (current_timestamp ck 0)
                        (permanent_verified st))) ;;
           ret (Sent 200 (PVerified address))
         else if eq_str action "list" then
           ret (Sent 200 (PVerifiedList (select_permanent_verified st)))
         else ret Silent
     end)
    failure_500.

(** [network not in ['celo', 'fuse']] is [negb (supported_network network)]. *)
Definition supported_network (network : string) : bool :=
  str_in network ["celo"; "fuse"].

(** [/api/auto-claim-schedule] *)
Definition post_auto_claim_schedule (ck : Clock) (data : Data) : World -> Reply * World :=
  try_except
    (address <- lift (py_lower (get (d_address data) (PyStr ""))) ;;
     network <- lift (py_lower (get (d_network data) (PyStr "celo"))) ;;
     if invalid_address address then raise (ValueError "Invalid address") else
     if negb (supported_network network)
     then raise (ValueError "Network must be celo or fuse") else
     conn <- get_db_connection ;;
     match conn with
     | Some st =>
         commit (with_auto_claim_schedule st
                   (upsert_auto_claim_schedule
                      {| AutoClaimSchedule.address := lower address;
                         AutoClaimSchedule.network := network;
                         AutoClaimSchedule.enabled := Some true;
                         AutoClaimSchedule.last_claim := Some (datetime_now ck 0);
                         AutoClaimSchedule.next_claim_time :=
                           Some (datetime_now ck 1 + timedelta 1 0 12)%Z |}
                      (auto_claim_schedule st)))
     | None => ret tt
     end ;;
     ret (Sent 200 (PScheduled address network)))
    failure_500.

(** One turn of the [for key in keys] loop of [/api/save-keys], on the
    table (with its sequence) and [saved_count].  A value that passes the
    test but cannot be bound as a statement parameter (a list, a dict) makes
    [execute] raise [sqlite3.Error], which the loop logs and swallows; a value
    without [len] raises [TypeError], which the loop does not catch. *)
Definition save_key (ck : Clock) (source device status : string) (i : nat)
    (key : pyval) (acc : (list SecretKeys.row * Z) * nat)
    : exn + ((list SecretKeys.row * Z) * nat) :=
  let '(t, saved_count) := acc in
  if truthy key then
    match py_len key with
    | inl e => inl e
    | inr n =>
        if (0 <? n)%nat then
          match key with
          | PyStr s =>
              let '(t', rowcount) :=
                insert_or_ignore_secret_key (current_timestamp ck i)
                  s source device status t in
              inr (t', if (0 <? rowcount)%nat then S saved_count else saved_count)
          | _ => inr acc
          end
        else inr acc
    end
  else inr acc.

Fixpoint save_loop (ck : Clock) (source device status : string) (i : nat)
    (keys : list pyval) (acc : (list SecretKeys.row * Z) * nat)
    : exn + ((list SecretKeys.row * Z) * nat) :=
  match keys with
  | [] => inr acc
  | key :: rest =>
      match save_key ck source device status i key acc with
      | inl e => inl e
      | inr acc' => save_loop ck source device status (S i) rest acc'
      end
  end.

Definition items (v : pyval) : list pyval :=
  match v with PyList l => l | _ => [] end.

(** [/api/save-keys] *)
Definition post_save_keys (ck : Clock) (data : Data) : World -> Reply * World :=
  try_except
    (let keys := get (d_keys data) (PyList []) in
     let source := get (d_source data) "batch-claim" in
     let device := get (d_device data) "Unknown Device" in
     let status := get (d_status data) "success" in
     if negb (truthy keys) || negb (is_list keys)
     then ret (Sent 400 (PError "Invalid keys format")) else
     conn <- get_db_connection ;;
     match conn with
     | None => ret (Sent 500 (PError "Database connection failed"))
     | Some st =>
         match save_loop ck source device status 0 (items keys)
                 ((secret_keys st, secret_keys_id_seq st), 0) with
         | inr ((rows, seq), saved_count) =>
             commit (with_secret_keys st rows seq) ;;
             ret (Sent 200 (PSaved saved_count))
         | inl e => ret (error_500 e)
         end
     end)
    error_500.

(** The dictionary built for one selected row by [/api/fetch-keys];
    [kv_added = None] stands for the empty string. *)
Definition key_view (r : SecretKeys.row) : KeyView :=
  {| kv_key := SecretKeys.private_key r;
     kv_added := SecretKeys.created_at r;
     kv_source := SecretKeys.source r;
     kv_device := SecretKeys.device r;
     kv_status := SecretKeys.status r |}.

Section Gate.

(** [lambda b: hashlib.sha256(b).hexdigest()] *)
Variable sha256_hexdigest : string -> string.

Definition MASTER_PASSWORD : string := sha256_hexdigest "963050".

Definition validate_password (password : pyval) : exn + bool :=
  match py_encode password with
  | inl e => inl e
  | inr bytes => inr (sha256_hexdigest bytes =? MASTER_PASSWORD)
  end.

(** [/api/fetch-keys] *)
Definition post_fetch_keys (data : Data) : World -> Reply * World :=
  try_except
    (let password := get (d_password data) (PyStr "") in
     ok <- lift (validate_password password) ;;
     if negb ok then ret (Sent 401 (PError "Invalid password")) else
     conn <- get_db_connection ;;
     match conn with
     | None => ret (Sent 200 (PKeys []))
     | Some st => ret (Sent 200 (PKeys (map key_view (select_secret_keys st))))
     end)
    error_500.

(** [/api/clear-keys] *)
Definition post_clear_keys (data : Data) : World -> Reply * World :=
  try_except
    (let password := get (d_password data) (PyStr "") in
     ok <- lift (validate_password password) ;;
     if negb ok then ret (Sent 401 (PError "Invalid password")) else
     conn <- get_db_connection ;;
     match conn with
     | None => ret (Sent 500 (PError "Database connection failed"))
     | Some st =>
         let '(st', deleted_count) := delete_secret_keys st in
         commit st' ;;
         ret (Sent 200 (PDeleted deleted_count))
     end)
    error_500.

End Gate.

(** [/api/check-key-status] *)
Definition post_check_key_status (data : Data) : World -> Reply * World :=
  try_except
    (address <- lift (py_lower (get (d_address data) (PyStr ""))) ;;
     if address =? "" then ret (Sent 400 (PError "Address required")) else
     conn <- get_db_connection ;;
     match conn with
     | None => ret (Sent 500 (PError "DB Error"))
     | Some st =>
         let result := select_disabled_key address st in
         let is_disabled := match result with Some _ => true | None => false end in
         ret (Sent 200 (PKeyStatus is_disabled address))
     end)
    error_500.

(** [/api/toggle-key-status] *)
Definition post_toggle_key_status (data : Data) : World -> Reply * World :=
  try_except
    (address <- lift (py_lower (get (d_address data) (PyStr ""))) ;;
     action <- lift (py_lower (get (d_action data) (PyStr ""))) ;;
     if (address =? "") || negb (str_in action ["enable"; "disable"])
     then ret (Sent 400 (PError "Address and action required")) else
     conn <- get_db_connection ;;
     match conn with
     | None => ret (Sent 500 (PError "DB Error"))
     | Some st =>
         if action =? "disable" then
           commit (with_disabled_keys st
                     (insert_disabled_key address "Disabled by user"
                        (disabled_keys st))) ;;
           ret (Sent 200 (PToggled "disabled" address))
         else
           commit (with_disabled_keys st
                     (delete_disabled_key address (disabled_keys st))) ;;
           ret (Sent 200 (PToggled "enabled" address))
     end)
    error_500.

(** * Properties *)

(** ** Requests and worlds used in the statements *)

(** The lower-cased [address] of a request, as every handler computes it. *)
Definition address_of (data : Data) : exn + string :=
  py_lower (get (d_address data) (PyStr "")).

(** The lower-cased [network] of a schedule request. *)
Definition network_of (data : Data) : exn + string :=
  py_lower (get (d_network data) (PyStr "celo")).

(** The lower-cased [action] of a toggle request. *)
Definition toggle_action_of (data : Data) : exn + string :=
  py_lower (get (d_action data) (PyStr "")).

(** The [password] of a gated request. *)
Definition password_of (data : Data) : pyval :=
  get (d_password data) (PyStr "").

Definition save_request (keys : list string) : Data :=
  {| d_address := None; d_network := None; d_action := None;
     d_password := None; d_keys := Some (PyList (map PyStr keys));
     d_source := None; d_device := None; d_status := None |}.

Definition online (st : Store) : World :=
  {| db := st; reachable := true; connections := 0 |}.

Definition offline (st : Store) : World :=
  {| db := st; reachable := false; connections := 0 |}.

Definition wall_clock (t : Z) : Clock :=
  {| datetime_now := fun k => (t + Z.of_nat k)%Z;
     current_timestamp := fun k => (t + Z.of_nat k)%Z |}.


(** The primary key of [permanent_verified]: one row per address. *)
Definition pk_permanent_verified (t : list PermanentVerified.row) : Prop :=
  NoDup (map PermanentVerified.address t).

Definition schedule_key (r : AutoClaimSchedule.row) : string * string :=
  (AutoClaimSchedule.address r, AutoClaimSchedule.network r).

(** The primary key of [auto_claim_schedule]: one row per (address, network). *)
Definition pk_auto_claim_schedule (t : list AutoClaimSchedule.row) : Prop :=
  NoDup (map schedule_key t).

(** What the conflict branch of the schedule upsert does to a stored row [x],
    giving [y]: a row of the pair ([address], [network]) takes [enabled] and
    [next_claim_time] from the call and keeps the rest; any other row is kept
    whole. *)
Definition schedule_row_updated (address network : string) (next : Z)
    (x y : AutoClaimSchedule.row) : Prop :=
  if same_schedule address network x
  then AutoClaimSchedule.address y = AutoClaimSchedule.address x
       /\ AutoClaimSchedule.network y = AutoClaimSchedule.network x
       /\ AutoClaimSchedule.last_claim y = AutoClaimSchedule.last_claim x
       /\ AutoClaimSchedule.enabled y = Some true
       /\ AutoClaimSchedule.next_claim_time y = Some next
  else y = x.

(** The tables a schedule call has no business with. *)
Definition same_outside_schedule (a b : Store) : Prop :=
  secret_keys b = secret_keys a
  /\ secret_keys_id_seq b = secret_keys_id_seq a
  /\ app_settings b = app_settings a
  /\ permanent_verified b = permanent_verified a
  /\ disabled_keys b = disabled_keys a.

(** A sequence of [/api/permanent-verified] requests, served in order. *)
Fixpoint serve_permanent_verified (calls : list (Clock * Data)) (w : World) : World :=
  match calls with
  | [] => w
  | (ck, data) :: rest =>
      serve_permanent_verified rest (snd (post_permanent_verified ck data w))
  end.

(** The row a schedule call offers to the table. *)
Definition offered_schedule (ck : Clock) (address network : string) : AutoClaimSchedule.row :=
  {| AutoClaimSchedule.address := address;
     AutoClaimSchedule.network := network;
     AutoClaimSchedule.enabled := Some true;
     AutoClaimSchedule.last_claim := Some (datetime_now ck 0);
     AutoClaimSchedule.next_claim_time :=
       Some (datetime_now ck 1 + timedelta 1 0 12)%Z |}.

(** The claim that a schedule call stamps [last_claim] with the time of the
    call on every row of its pair, whether or not the row existed. *)
Definition schedule_call_sets_last_claim : Prop :=
  forall (ck : Clock) (data : Data) (w : World) (address network : string),
    address_of data = inr address ->
    invalid_address address = false ->
    network_of data = inr network ->
    supported_network network = true ->
    reachable w = true ->
    forall r,
      In r (auto_claim_schedule (db (snd (post_auto_claim_schedule ck data w)))) ->
      same_schedule address network r = true ->
      AutoClaimSchedule.last_claim r = Some (datetime_now ck 0).

Definition schedule_request (address network : string) : Data :=
  {| d_address := Some (PyStr address); d_network := Some (PyStr network);
     d_action := None; d_password := None; d_keys := None;
     d_source := None; d_device := None; d_status := None |}.

Definition address_request (address : string) : Data :=
  {| d_address := Some (PyStr address); d_network := None;
     d_action := None; d_password := None; d_keys := None;
     d_source := None; d_device := None; d_status := None |}.

Definition toggle_request (address action : string) : Data :=
  {| d_address := Some (PyStr address); d_network := None;
     d_action := Some (PyStr action); d_password := None; d_keys := None;
     d_source := None; d_device := None; d_status := None |}.

Definition password_request (password : string) : Data :=
  {| d_address := None; d_network := None; d_action := None;
     d_password := Some (PyStr password); d_keys := None;
     d_source := None; d_device := None; d_status := None |}.

(** A store holding one schedule row written at time 0. *)
Definition yesterday_schedule : Store :=
  with_auto_claim_schedule empty_store
    [{| AutoClaimSchedule.address := "0xabc";
        AutoClaimSchedule.network := "celo";
        AutoClaimSchedule.enabled := Some true;
        AutoClaimSchedule.last_claim := Some 0%Z;
        AutoClaimSchedule.next_claim_time := Some (timedelta 1 0 12) |}].

(** A store with rows in every table. *)
Definition busy_store : Store :=
  {| secret_keys :=
       [{| SecretKeys.id := 1; SecretKeys.private_key := Some "k1";
           SecretKeys.source := Some "batch-claim";
           SecretKeys.device := Some "Unknown Device";
           SecretKeys.status := Some "success";
           SecretKeys.created_at := Some 10%Z |};
        {| SecretKeys.id := 2; SecretKeys.private_key := Some "k2";
           SecretKeys.source := Some "batch-claim";
           SecretKeys.device := Some "Unknown Device";
           SecretKeys.status := Some "success";
           SecretKeys.created_at := Some 20%Z |}];
     secret_keys_id_seq := 3;
     app_settings :=
       [{| AppSettings.id := 1;
           AppSettings.key := Some "xdc_maintenance_mode";
           AppSettings.value := Some "False" |}];
     permanent_verified :=
       [{| PermanentVerified.address := "0xdef";
           PermanentVerified.verified_at := Some 5%Z;
           PermanentVerified.expires_at := Some 99%Z |}];
     auto_claim_schedule :=
       [{| AutoClaimSchedule.address := "0xdef";
           AutoClaimSchedule.network := "fuse";
           AutoClaimSchedule.enabled := Some false;
           AutoClaimSchedule.last_claim := Some 7%Z;
           AutoClaimSchedule.next_claim_time := Some 8%Z |}];
     disabled_keys :=
       [{| DisabledKeys.key_address := "0xdef";
           DisabledKeys.reason := Some "Disabled by user" |}] |}.

(** The gate statements hold for any digest function; the examples run them
    with the identity in its place. *)
Definition plain_digest (s : string) : string := s.

(** ** Further predicates on batches, tables and stores *)

(** [len(v)] is defined, or [v] is falsy and the loop never asks for it. *)
Definition sized (v : pyval) : bool :=
  negb (truthy v) || match py_len v with inr _ => true | inl _ => false end.



(** Rows in the order of [ORDER BY col DESC]: no row is older than a row
    that follows it. *)
Definition newest_first {A : Type} (col : A -> option Z) (l : list A) : Prop :=
  StronglySorted (fun a b => ts_ltb (col a) (col b) = false) l.

(** The tables a save request has no business with. *)
Definition same_outside_secret_keys (a b : Store) : Prop :=
  app_settings b = app_settings a
  /\ permanent_verified b = permanent_verified a
  /\ auto_claim_schedule b = auto_claim_schedule a
  /\ disabled_keys b = disabled_keys a.

(** The tables a toggle request has no business with. *)
Definition same_outside_disabled_keys (a b : Store) : Prop :=
  secret_keys b = secret_keys a
  /\ secret_keys_id_seq b = secret_keys_id_seq a
  /\ app_settings b = app_settings a
  /\ permanent_verified b = permanent_verified a
  /\ auto_claim_schedule b = auto_claim_schedule a.

(** The tables a registry request has no business with. *)
Definition same_outside_permanent_verified (a b : Store) : Prop :=
  secret_keys b = secret_keys a
  /\ secret_keys_id_seq b = secret_keys_id_seq a
  /\ app_settings b = app_settings a
  /\ auto_claim_schedule b = auto_claim_schedule a
  /\ disabled_keys b = disabled_keys a.


Definition keys_request (keys : list pyval) : Data :=
  {| d_address := None; d_network := None; d_action := None;
     d_password := None; d_keys := Some (PyList keys);
     d_source := Some "faucet"; d_device := Some "phone"; d_status := None |}.

Definition action_request (address action : string) : Data :=
  {| d_address := Some (PyStr address); d_network := None;
     d_action := Some (PyStr action); d_password := None; d_keys := None;
     d_source := None; d_device := None; d_status := None |}.

Definition numeric_password_request (n : Z) : Data :=
  {| d_address := None; d_network := None; d_action := None;
     d_password := Some (PyInt n); d_keys := None;
     d_source := None; d_device := None; d_status := None |}.

(** ** The maintenance flag: [/api/get-maintenance-mode] and
    [/api/set-maintenance-mode] *)

(** The JSON scalars a request can carry as [maintenance_mode]. *)
Inductive scalar : Type :=
| ScNone
| ScBool (b : bool)
| ScInt (n : Z)
| ScStr (s : string).

(** [str(v)] *)
Definition py_str (v : scalar) : string :=
  match v with
  | ScNone => "None"
  | ScBool true => "True"
  | ScBool false => "False"
  | ScInt n => NilZero.string_of_int (Z.to_int n)
  | ScStr s => s
  end.

(** The decoded body of a [set-maintenance-mode] request. *)
Record MaintenanceData : Type := {
  m_password : option pyval;
  m_maintenance_mode : option scalar
}.

Inductive MaintenancePayload : Type :=
| MError (error : string)
| MMode (maintenance_mode : bool)
| MSaved (maintenance_mode : scalar).

(** Status code and body. *)
Definition MaintenanceReply : Type := Z * MaintenancePayload.

(** [try: body  except Exception as e: handler e], for any kind of answer. *)
Definition attempt {R : Type} (body : M R) (handler : exn -> R) : World -> R * World :=
  fun w =>
    match body w with
    | (inr r, w') => (r, w')
    | (inl e, w') => (handler e, w')
    end.

Definition with_app_settings (st : Store) (t : list AppSettings.row) : Store :=
  {| secret_keys := secret_keys st; secret_keys_id_seq := secret_keys_id_seq st;
     app_settings := t;
     permanent_verified := permanent_verified st;
     auto_claim_schedule := auto_claim_schedule st;
     disabled_keys := disabled_keys st |}.

(** [key = ?] on a nullable column. *)
Definition setting_named (k : string) (x : AppSettings.row) : bool :=
  match AppSettings.key x with
  | Some s => s =? k
  | None => false
  end.

(** [SELECT value FROM app_settings WHERE key = ?] then [fetchone()] *)
Definition select_setting (k : string) (st : Store) : option AppSettings.row :=
  find (setting_named k) (app_settings st).

(** What the engine contributes to an insert into [app_settings]: the value
    its sequence yields for [id], and the text of the error it raises when a
    primary key is violated. *)
Record Engine : Type := {
  app_settings_nextval : Z;
  integrity_error : string
}.

(** The [DO UPDATE SET value = ?] clause, applied to the stored row [x] while
    scanning for [k]. *)
Definition on_conflict_app_setting (k v : string) (x : AppSettings.row) : AppSettings.row :=
  if setting_named k x
  then {| AppSettings.id := AppSettings.id x;
          AppSettings.key := AppSettings.key x;
          AppSettings.value := Some v |}
  else x.

(** [INSERT INTO app_settings (key, value) VALUES (?, ?)
    ON CONFLICT (key) DO UPDATE SET value = ?]; [None] when the new row
    would repeat a stored [id], which the clause does not cover. *)
Definition upsert_app_setting (eng : Engine) (k v : string)
    (t : list AppSettings.row) : option (list AppSettings.row) :=
  if existsb (setting_named k) t
  then Some (map (on_conflict_app_setting k v) t)
  else if existsb (fun x => (AppSettings.id x =? app_settings_nextval eng)%Z) t
  then None
  else Some (t ++ [{| AppSettings.id := app_settings_nextval eng;
                      AppSettings.key := Some k;
                      AppSettings.value := Some v |}]).

(** A nullable text column as the Python value the cursor returns. *)
Definition column (v : option string) : pyval :=
  match v with Some s => PyStr s | None => PyNone end.

(** [/api/get-maintenance-mode] *)
Definition post_get_maintenance_mode : World -> MaintenanceReply * World :=
  attempt
    (conn <- get_db_connection ;;
     match conn with
     | None => ret (500%Z, MError "DB connection failed")
     | Some st =>
         match select_setting "xdc_maintenance_mode" st with
         | Some result =>
             value <- lift (py_lower (column (AppSettings.value result))) ;;
             ret (200%Z, MMode (value =? "true"))
         | None => ret (200%Z, MMode false)
         end
     end)
    (fun e => (500%Z, MError (slice_to 100 (str e)))).

Section Settings.
Variable sha256_hexdigest : string -> string.

(** [/api/set-maintenance-mode] *)
Definition post_set_maintenance_mode (eng : Engine) (data : MaintenanceData)
    : World -> MaintenanceReply * World :=
  attempt
    (let password := get (m_password data) (PyStr "") in
     let maintenance_mode := get (m_maintenance_mode data) (ScBool false) in
     ok <- lift (validate_password sha256_hexdigest password) ;;
     if negb ok then ret (401%Z, MError "Invalid password") else
     conn <- get_db_connection ;;
     match conn with
     | None => ret (500%Z, MError "DB connection failed")
     | Some st =>
         match upsert_app_setting eng "xdc_maintenance_mode"
                 (py_str maintenance_mode) (app_settings st) with
         | Some t =>
             commit (with_app_settings st t) ;;
             ret (200%Z, MSaved maintenance_mode)
         | None => ret (500%Z, MError (slice_to 100 (integrity_error eng)))
         end
     end)
    (fun e => (500%Z, MError (slice_to 100 (str e)))).

End Settings.


(** What the flag reads as once [v] has been written. *)
Definition reads_as (v : scalar) : bool := lower (py_str v) =? "true".

Definition flag_request (password : string) (v : scalar) : MaintenanceData :=
  {| m_password := Some (PyStr password); m_maintenance_mode := Some v |}.

Definition fresh_engine : Engine :=
  {| app_settings_nextval := 2; integrity_error := "duplicate key" |}.

(** ** Faucet claims: [/api/claim-celo] *)

(** What [requests.post] gave: a response with its status code and, when
    the body parses, its JSON; or an exception. *)
Inductive HttpOutcome : Type :=
| Responded (status_code : Z) (json : option pyval)
| Raised.

Module Faucet.
Record attempt : Type := {
  source : string;
  success : bool;
  data : option pyval;
  error : option string
}.
End Faucet.

(** A request sent out: the URL and the JSON object posted to it. *)
Record Posted : Type := {
  url : string;
  body : list (string * string)
}.

Inductive ClaimReply : Type :=
| ClaimRejected (code : Z) (error : string)
| ClaimSent (address faucet : string)
| ClaimUnavailable (address : string) (attempts : list Faucet.attempt).

(** One [try: ... except: ...] block around a faucet: the entry appended to
    [faucet_responses]. *)
Definition faucet_entry (name unavailable : string) (r : HttpOutcome) : Faucet.attempt :=
  match r with
  | Responded code json =>
      if (code =? 200)%Z then
        match json with
        | Some d => {| Faucet.source := name; Faucet.success := true;
                       Faucet.data := Some d; Faucet.error := None |}
        | None => {| Faucet.source := name; Faucet.success := false;
                     Faucet.data := None; Faucet.error := Some "Connection failed" |}
        end
      else {| Faucet.source := name; Faucet.success := false;
              Faucet.data := None; Faucet.error := Some unavailable |}
  | Raised => {| Faucet.source := name; Faucet.success := false;
                 Faucet.data := None; Faucet.error := Some "Connection failed" |}
  end.

(** [/api/claim-celo], given what the two faucets answer when asked; the
    second component lists the requests sent out, in order. *)
Definition post_claim_celo (stakely allthatnode : HttpOutcome) (data : Data)
    : ClaimReply * list Posted :=
  match py_lower (get (d_address data) (PyStr "")) with
  | inl e => (ClaimRejected 500 (slice_to 100 (str e)), [])
  | inr address =>
      if invalid_address address
      then (ClaimRejected 400 "Invalid address", [])
      else
        let faucet_responses :=
          [faucet_entry "Stakely" "Faucet rate limited or unavailable" stakely;
           faucet_entry "AllThatNode" "Faucet unavailable" allthatnode] in
        let successful := filter Faucet.success faucet_responses in
        (match successful with
         | first :: _ => ClaimSent address (Faucet.source first)
         | [] => ClaimUnavailable address faucet_responses
         end,
         [{| url := "https://stakely.io/api/v1/faucet/claim";
             body := [("address", address); ("blockchain", "celo")] |};
          {| url := "https://www.allthatnode.com/api/v1/faucet/celo/request";
             body := [("address", address)] |}])
  end.

(** A faucet answered 200 with a JSON body. *)
Definition granted (r : HttpOutcome) : bool :=
  match r with
  | Responded code (Some _) => (code =? 200)%Z
  | _ => false
  end.

(** ** Schema creation: [run] *)

(** A database in which each of the five tables may or may not exist yet;
    [secret_keys] comes with the sequence of its [id]. *)
Record Database : Type := {
  tab_secret_keys : option (list SecretKeys.row * Z);
  tab_app_settings : option (list AppSettings.row);
  tab_permanent_verified : option (list PermanentVerified.row);
  tab_auto_claim_schedule : option (list AutoClaimSchedule.row);
  tab_disabled_keys : option (list DisabledKeys.row)
}.

(** [CREATE TABLE IF NOT EXISTS] *)
Definition create_if_not_exists {A : Type} (t : option A) (empty : A) : option A :=
  match t with
  | Some rows => Some rows
  | None => Some empty
  end.

(** What [run] prints. *)
Inductive Printed : Type :=
| SkipInit
| InitOK
| InitError (e : string).

(** [run()], given the value of [DATABASE_URL] and what
    [psycopg2.connect] does: [connect = inl e] when it raises with text [e],
    [inr d] when it reaches the database [d].  The result is the database
    afterwards ([None] when none was reached) and the line printed. *)
Definition run (database_url : option string) (connect : string + Database)
    : option Database * Printed :=
  match database_url with
  | None => (None, SkipInit)
  | Some u =>
      if u =? "" then (None, SkipInit) else
      match connect with
      | inl e => (None, InitError e)
      | inr d =>
          (Some {| tab_secret_keys := create_if_not_exists (tab_secret_keys d) ([], 1%Z);
                   tab_app_settings := create_if_not_exists (tab_app_settings d) [];
                   tab_permanent_verified :=
                     create_if_not_exists (tab_permanent_verified d) [];
                   tab_auto_claim_schedule :=
                     create_if_not_exists (tab_auto_claim_schedule d) [];
                   tab_disabled_keys := create_if_not_exists (tab_disabled_keys d) [] |},
           InitOK)
      end
  end.

(** The store the handlers work on, once every table exists. *)
Definition store_of (d : Database) : option Store :=
  match tab_secret_keys d, tab_app_settings d, tab_permanent_verified d,
        tab_auto_claim_schedule d, tab_disabled_keys d with
  | Some (sk, seq), Some se, Some pv, Some sc, Some dk =>
      Some {| secret_keys := sk; secret_keys_id_seq := seq; app_settings := se;
              permanent_verified := pv; auto_claim_schedule := sc;
              disabled_keys := dk |}
  | _, _, _, _, _ => None
  end.

Definition blank_database : Database :=
  {| tab_secret_keys := None; tab_app_settings := None;
     tab_permanent_verified := None; tab_auto_claim_schedule := None;
     tab_disabled_keys := None |}.

(** ** Posting to X: [/api/x-post] *)

(** The decoded body of an [x-post] request. *)
Record XPostData : Type := {
  x_message : option pyval;
  x_apiKey : option pyval
}.

(** The body of the answer: a failure with its [error] text; the failure
    whose text spells out the expected JSON format; or the id of the tweet. *)
Inductive XPayload : Type :=
| XFailure (error : string)
| XInvalidFormat
| XPosted (tweetId : string).

(** What the [tweepy] library does once it is given credentials and a
    status: it is not installed (the module is [None]), it posts and returns
    a tweet whose id has text [tweetId], or one of its calls raises an
    exception whose text is [te]. *)
Inductive Tweepy : Type :=
| NotInstalled
| Posts (tweetId : string)
| Raises (te : string).

(** What the handler hands to the library. *)
Record XCall : Type := {
  api_key_str : pyval;
  api_secret_str : pyval;
  access_token_str : pyval;
  access_token_secret_str : pyval;
  x_status : pyval
}.

(** [d.get(k, default)] on a decoded JSON object. *)
Definition dict_get (d : list (string * pyval)) (k : string) (default : pyval) : pyval :=
  match find (fun kv => fst kv =? k) d with
  | Some kv => snd kv
  | None => default
  end.

(** [json.loads(v)], given the parser [loads] for text: [inl] is the
    [TypeError] raised for a value that is not text, [inr None] a
    [JSONDecodeError]. *)
Definition json_loads (loads : string -> option pyval) (v : pyval) : exn + option pyval :=
  match v with
  | PyStr s => inr (loads s)
  | _ => inl (TypeError
                (String.append "the JSON object must be str, bytes or bytearray, not "
                   (type_name v)))
  end.

(** [/api/x-post]; the second component is what was handed to [tweepy], if
    anything. *)
Definition post_x_post (loads : string -> option pyval) (tweepy : Tweepy)
    (data : XPostData) : (Z * XPayload) * option XCall :=
  let message := get (x_message data) (PyStr "") in
  let api_key := get (x_apiKey data) (PyStr "") in
  if negb (truthy message) || negb (truthy api_key)
  then ((200%Z, XFailure "Missing message or API key"), None)
  else
    match py_len message with
    | inl e => ((200%Z, XFailure (slice_to 200 (str e))), None)
    | inr _ =>
        match json_loads loads api_key with
        | inl te => ((200%Z, XFailure (slice_to 200 (str te))), None)
        | inr None => ((200%Z, XInvalidFormat), None)
        | inr (Some (PyDict creds)) =>
            let call :=
              {| api_key_str := dict_get creds "api_key" (PyStr "");
                 api_secret_str := dict_get creds "api_secret" (PyStr "");
                 access_token_str := dict_get creds "access_token" (PyStr "");
                 access_token_secret_str :=
                   dict_get creds "access_token_secret" (PyStr "");
                 x_status := message |} in
            if negb (forallb truthy
                       [api_key_str call; api_secret_str call;
                        access_token_str call; access_token_secret_str call])
            then ((200%Z,
                   XFailure "Invalid JSON credentials. Need: api_key, api_secret, access_token, access_token_secret"),
                  None)
            else
              match tweepy with
              | NotInstalled =>
                  ((200%Z,
                    XFailure (slice_to 200
                                (str (no_attribute PyNone "OAuthHandler")))),
                   None)
              | Posts tweet_id => ((200%Z, XPosted tweet_id), Some call)
              | Raises te => ((200%Z, XFailure (slice_to 200 te)), Some call)
              end
        | inr (Some creds) =>
            ((200%Z, XFailure (slice_to 200 (str (no_attribute creds "get")))), None)
        end
    end.

(** The four credentials are all present and non-empty. *)
Definition complete (c : XCall) : Prop :=
  truthy (api_key_str c) = true
  /\ truthy (api_secret_str c) = true
  /\ truthy (access_token_str c) = true
  /\ truthy (access_token_secret_str c) = true.

(** A parser that knows one text: a complete set of credentials. *)
Definition one_text_loads (s : string) : option pyval :=
  if s =? "creds"
  then Some (PyDict [("api_key", PyStr "a"); ("api_secret", PyStr "b");
                     ("access_token", PyStr "c");
                     ("access_token_secret", PyStr "d")])
  else None.

Definition x_post_request (message api_key : string) : XPostData :=
  {| x_message := Some (PyStr message); x_apiKey := Some (PyStr api_key) |}.

(** A database in which only two of the tables exist. *)
Definition half_database : Database :=
  {| tab_secret_keys := Some (secret_keys busy_store, 3%Z);
     tab_app_settings := None;
     tab_permanent_verified := Some (permanent_verified busy_store);
     tab_auto_claim_schedule := None;
     tab_disabled_keys := None |}.

(** Text made of ASCII characters only, where [lower] is [str.lower]. *)
Fixpoint ascii_text (s : string) : bool :=
  match s with
  | EmptyString => true
  | String c r => (nat_of_ascii c <? 128)%nat && ascii_text r
  end.

(** ** [get_db_connection] in full, and the retrieval on what it returns *)

(** [needle in s] *)
Fixpoint contains (s needle : string) : bool :=
  String.prefix needle s
  || match s with
     | EmptyString => false
     | String _ r => contains r needle
     end.

(** What the process finds around it: the value of [DATABASE_URL]; what
    [psycopg2.connect] does with it and what [sqlite3.connect] does with the
    file [~/gooddollar.db] ([inl e] when the call raises with text [e],
    [inr d] when it opens the database [d]); and the text of the error the
    engine raises for a statement on a table that does not exist. *)
Record Environment : Type := {
  DATABASE_URL : option string;
  postgres : string + Database;
  sqlite_file : string + Database;
  missing_table : string
}.

(** [database_url and 'postgresql' in database_url] *)
Definition postgres_configured (env : Environment) : bool :=
  match DATABASE_URL env with
  | Some database_url => negb (database_url =? "") && contains database_url "postgresql"
  | None => false
  end.

(** [get_db_connection()] with its two attempts: PostgreSQL first when it
    is configured, then the SQLite file; [None] only when the last attempt
    raises. *)
Definition get_db_connection_in (env : Environment) : option Database :=
  let fallback :=
    match sqlite_file env with
    | inr d => Some d
    | inl _ => None
    end in
  if postgres_configured env then
    match postgres env with
    | inr d => Some d
    | inl _ => fallback
    end
  else fallback.

Section RetrievalInFull.
Variable sha256_hexdigest : string -> string.

(** [/api/fetch-keys] on a database whose tables may be missing: the answer
    sent, with the [except] clause around the query.  The rows are presented
    as the SQLite cursor returns them. *)
Definition fetch_keys_in (env : Environment) (data : Data) : Reply :=
  match validate_password sha256_hexdigest (get (d_password data) (PyStr "")) with
  | inl e => error_500 e
  | inr ok =>
      if negb ok then Sent 401 (PError "Invalid password") else
      match get_db_connection_in env with
      | None => Sent 200 (PKeys [])
      | Some d =>
          match tab_secret_keys d with
          | Some (rows, _) =>
              Sent 200 (PKeys (map key_view
                                 (order_by_desc SecretKeys.created_at rows)))
          | None => Sent 500 (PError (slice_to 100 (missing_table env)))
          end
      end
  end.

End RetrievalInFull.



(** The claim that two schedule calls leave exactly one row for their pair
    whether or not a connection can be obtained. *)
Definition schedule_twice_always_one_row : Prop :=
  forall (ck1 ck2 : Clock) (data1 data2 : Data) (w : World) (address network : string),
    address_of data1 = inr address ->
    address_of data2 = inr address ->
    invalid_address address = false ->
    network_of data1 = inr network ->
    network_of data2 = inr network ->
    supported_network network = true ->
    pk_auto_claim_schedule (auto_claim_schedule (db w)) ->
    exists r,
      filter (same_schedule address network)
        (auto_claim_schedule
           (db (snd (post_auto_claim_schedule ck2 data2
                       (snd (post_auto_claim_schedule ck1 data1 w))))))
      = [r].



(** ** Basic facts on strings *)

Lemma lower_char_idempotent (c : ascii) : lower_char (lower_char c) = lower_char c.
Proof.
  destruct c as [[] [] [] [] [] [] [] []]; reflexivity.
Qed.

Lemma lower_idempotent (s : string) : lower (lower s) = lower s.
Proof.
  induction s as [| c r IH]; simpl.
  - reflexivity.
  - now rewrite lower_char_idempotent, IH.
Qed.

Lemma py_lower_inv (v : pyval) (s : string) :
  py_lower v = inr s -> exists raw, v = PyStr raw /\ s = lower raw.
Proof.
  destruct v; simpl; intro H; try discriminate H.
  injection H as <-. eexists; split; reflexivity.
Qed.

Lemma py_lower_fixed (v : pyval) (s : string) :
  py_lower v = inr s -> lower s = s.
Proof.
  intro H. apply py_lower_inv in H as (raw & _ & ->). apply lower_idempotent.
Qed.

(** ** Credential ingest *)





(** C1 (evaluation of the code at the claim's own example).  On an empty
    store the batch [["k1"; "k1"; "k2"]] is answered with [saved = 3] and
    leaves three rows, two of them holding ["k1"]; a second submission of
    ["k1"] alone is answered with [saved = 1].  The claim expects 2 and 0. *)
Theorem save_keys_keeps_duplicates (ck : Clock) :
  let first := post_save_keys ck (save_request ["k1"; "k1"; "k2"]) (online empty_store) in
  let second := post_save_keys ck (save_request ["k1"]) (snd first) in
  fst first = Sent 200 (PSaved 3)
  /\ map SecretKeys.private_key (secret_keys (db (snd first)))
     = [Some "k1"; Some "k1"; Some "k2"]
  /\ fst second = Sent 200 (PSaved 1)
  /\ map SecretKeys.private_key (secret_keys (db (snd second)))
     = [Some "k1"; Some "k1"; Some "k2"; Some "k1"].
Proof.
  cbv zeta. repeat split; reflexivity.
Qed.

(** ** Tables with a primary key

    [key] is the primary key of a row and [p] the test "this row has key
    [k]" that a statement applies while scanning the table. *)

Section Keyed.
  Context {A K : Type} (key : A -> K) (p : A -> bool) (k : K).
  Hypothesis p_spec : forall x, p x = true <-> key x = k.

Lemma keyed_absent (t : list A) :
  existsb p t = false -> ~ In k (map key t).
Proof.
  intros He Hin. apply in_map_iff in Hin as (x & Hx & Hin).
  assert (Ht : existsb p t = true).
  { apply existsb_exists. exists x. split; [exact Hin | now apply p_spec]. }
  congruence.
Qed.

Lemma keyed_filter_absent (t : list A) :
  ~ In k (map key t) -> filter p t = [].
Proof.
  induction t as [| x t IH]; simpl; intro Hn.
  - reflexivity.
  - destruct (p x) eqn:Hx.
    + exfalso. apply Hn. left. now apply p_spec.
    + apply IH. intro Hin. apply Hn. now right.
Qed.

Lemma keyed_filter_present (t : list A) :
  NoDup (map key t) -> existsb p t = true -> exists x, filter p t = [x].
Proof.
  induction t as [| x t IH]; simpl; intros Hnd He.
  - discriminate He.
  - apply NoDup_cons_iff in Hnd as [Hx Hnd].
    destruct (p x) eqn:Hpx.
    + exists x. f_equal. apply keyed_filter_absent.
      apply p_spec in Hpx. now rewrite <- Hpx.
    + simpl in He. now apply IH.
Qed.

Lemma keyed_map_keys (f : A -> A) (t : list A) :
  (forall x, key (f x) = key x) -> map key (map f t) = map key t.
Proof.
  intro Hf. rewrite map_map. apply map_ext. exact Hf.
Qed.

Lemma keyed_filter_map (f : A -> A) (t : list A) :
  (forall x, p (f x) = p x) -> filter p (map f t) = map f (filter p t).
Proof.
  intro Hf. induction t as [| x t IH]; simpl.
  - reflexivity.
  - rewrite Hf. destruct (p x); simpl; now rewrite IH.
Qed.

Lemma keyed_snoc (r : A) (t : list A) :
  key r = k -> existsb p t = false ->
  NoDup (map key t) -> NoDup (map key (t ++ [r])).
Proof.
  intros Hr He Hnd. rewrite map_app. simpl.
  apply NoDup_rev in Hnd. rewrite <- (rev_involutive (map key t ++ [key r])).
  apply NoDup_rev. rewrite rev_app_distr. simpl.
  constructor; [| exact Hnd].
  rewrite <- in_rev, Hr. now apply keyed_absent.
Qed.

End Keyed.

(** ** Claim schedule *)

Lemma same_schedule_spec (address network : string) (x : AutoClaimSchedule.row) :
  same_schedule address network x = true <-> schedule_key x = (address, network).
Proof.
  unfold same_schedule, schedule_key. rewrite andb_true_iff, !String.eqb_eq.
  split.
  - intros [-> ->]. reflexivity.
  - intro H. injection H as -> ->. auto.
Qed.

Section ScheduleUpsert.
  Variable excluded : AutoClaimSchedule.row.
  Local Abbreviation address := (AutoClaimSchedule.address excluded).
  Local Abbreviation network := (AutoClaimSchedule.network excluded).
  Local Abbreviation updated := (on_conflict_auto_claim_schedule excluded).

Lemma updated_key (x : AutoClaimSchedule.row) : schedule_key (updated x) = schedule_key x.
Proof.
  unfold on_conflict_auto_claim_schedule.
  now destruct (same_schedule address network x).
Qed.

Lemma updated_same (x : AutoClaimSchedule.row) :
  same_schedule address network (updated x) = same_schedule address network x.
Proof.
  unfold on_conflict_auto_claim_schedule.
  destruct (same_schedule address network x) eqn:H; exact H.
Qed.

Lemma upsert_schedule_pk (t : list AutoClaimSchedule.row) :
  pk_auto_claim_schedule t ->
  pk_auto_claim_schedule (upsert_auto_claim_schedule excluded t).
Proof.
  unfold pk_auto_claim_schedule, upsert_auto_claim_schedule. intro Hnd.
  destruct (existsb (same_schedule address network) t) eqn:He.
  - rewrite (keyed_map_keys schedule_key updated t updated_key). exact Hnd.
  - apply (keyed_snoc schedule_key (same_schedule address network)
             (address, network) (same_schedule_spec address network));
      [reflexivity | exact He | exact Hnd].
Qed.

Lemma upsert_schedule_single (t : list AutoClaimSchedule.row) :
  pk_auto_claim_schedule t ->
  exists r,
    filter (same_schedule address network) (upsert_auto_claim_schedule excluded t) = [r]
    /\ AutoClaimSchedule.enabled r = AutoClaimSchedule.enabled excluded
    /\ AutoClaimSchedule.next_claim_time r = AutoClaimSchedule.next_claim_time excluded.
Proof.
  unfold pk_auto_claim_schedule, upsert_auto_claim_schedule. intro Hnd.
  destruct (existsb (same_schedule address network) t) eqn:He.
  - destruct (keyed_filter_present schedule_key (same_schedule address network)
                (address, network) (same_schedule_spec address network) t Hnd He)
      as (x & Hx).
    exists (updated x).
    rewrite (keyed_filter_map (same_schedule address network) updated t updated_same), Hx.
    assert (Hsx : same_schedule address network x = true).
    { assert (Hin : In x (filter (same_schedule address network) t))
        by (rewrite Hx; now left).
      now apply filter_In in Hin. }
    unfold on_conflict_auto_claim_schedule. simpl. rewrite !Hsx. simpl. auto.
  - exists excluded. rewrite filter_app.
    rewrite (keyed_filter_absent schedule_key (same_schedule address network)
               (address, network) (same_schedule_spec address network) t
               (keyed_absent schedule_key (same_schedule address network)
                  (address, network) (same_schedule_spec address network) t He)).
    simpl.
    assert (Hs : same_schedule address network excluded = true)
      by (apply same_schedule_spec; reflexivity).
    rewrite Hs. auto.
Qed.

Lemma upsert_schedule_conflict (t : list AutoClaimSchedule.row) (next : Z) :
  AutoClaimSchedule.enabled excluded = Some true ->
  AutoClaimSchedule.next_claim_time excluded = Some next ->
  existsb (same_schedule address network) t = true ->
  Forall2 (schedule_row_updated address network next)
    t (upsert_auto_claim_schedule excluded t).
Proof.
  intros Hen Hnx He. unfold upsert_auto_claim_schedule.
  rewrite He. clear He.
  induction t as [| x t IH]; simpl; constructor; [| exact IH].
  unfold schedule_row_updated, on_conflict_auto_claim_schedule.
  destruct (same_schedule address network x); simpl; auto.
Qed.

End ScheduleUpsert.

Lemma post_auto_claim_schedule_ok (ck : Clock) (data : Data) (w : World)
    (address network : string) :
  address_of data = inr address ->
  invalid_address address = false ->
  network_of data = inr network ->
  supported_network network = true ->
  reachable w = true ->
  post_auto_claim_schedule ck data w
  = (Sent 200 (PScheduled address network),
     {| db := with_auto_claim_schedule (db w)
                (upsert_auto_claim_schedule (offered_schedule ck address network)
                   (auto_claim_schedule (db w)));
        reachable := true;
        connections := S (connections w) |}).
Proof.
  intros Ha Hv Hn Hs Hr.
  unfold post_auto_claim_schedule, try_except, bind, lift.
  unfold address_of in Ha. unfold network_of in Hn.
  rewrite Ha, Hn, Hv, Hs. cbn [negb].
  unfold get_db_connection, commit, ret, set_db. rewrite Hr. cbn.
  rewrite (py_lower_fixed _ _ Ha). reflexivity.
Qed.

(** C2 (as stated, refuted).  A schedule call on a pair that already has a
    row does not stamp [last_claim]: the conflict clause lists only [enabled]
    and [next_claim_time]. *)
Lemma schedule_call_keeps_old_last_claim : ~ schedule_call_sets_last_claim.
Proof.
  intro H.
  specialize (H (wall_clock 500) (schedule_request "0xabc" "celo")
                (online yesterday_schedule) "0xabc" "celo"
                eq_refl eq_refl eq_refl eq_refl eq_refl
                {| AutoClaimSchedule.address := "0xabc";
                   AutoClaimSchedule.network := "celo";
                   AutoClaimSchedule.enabled := Some true;
                   AutoClaimSchedule.last_claim := Some 0%Z;
                   AutoClaimSchedule.next_claim_time :=
                     Some (501 + timedelta 1 0 12)%Z |}).
  assert (Hc : Some 0%Z = Some 500%Z).
  { apply H; [left; reflexivity | reflexivity]. }
  discriminate Hc.
Qed.

(** C2 (amended).  A schedule call with a valid address and network on a
    reachable store: when the pair has no row, one row is appended with
    [enabled = true], [last_claim] the first clock reading and
    [next_claim_time] the second reading plus the interval; when the pair has
    a row, that row takes [enabled] and [next_claim_time] from the call and
    keeps [last_claim], and every other row is kept whole.  The other tables
    are untouched either way. *)
Theorem schedule_call_upserts (ck : Clock) (data : Data) (w : World)
    (address network : string) :
  address_of data = inr address ->
  invalid_address address = false ->
  network_of data = inr network ->
  supported_network network = true ->
  reachable w = true ->
  let t := auto_claim_schedule (db w) in
  let st' := db (snd (post_auto_claim_schedule ck data w)) in
  let next := (datetime_now ck 1 + timedelta 1 0 12)%Z in
  (existsb (same_schedule address network) t = false ->
     auto_claim_schedule st'
     = t ++ [{| AutoClaimSchedule.address := address;
                AutoClaimSchedule.network := network;
                AutoClaimSchedule.enabled := Some true;
                AutoClaimSchedule.last_claim := Some (datetime_now ck 0);
                AutoClaimSchedule.next_claim_time := Some next |}])
  /\ (existsb (same_schedule address network) t = true ->
        Forall2 (schedule_row_updated address network next)
          t (auto_claim_schedule st'))
  /\ same_outside_schedule (db w) st'.
Proof.
  intros Ha Hv Hn Hs Hr. cbv zeta.
  rewrite (post_auto_claim_schedule_ok ck data w address network Ha Hv Hn Hs Hr).
  cbn [snd db with_auto_claim_schedule auto_claim_schedule].
  split; [| split].
  - intro He. unfold upsert_auto_claim_schedule.
    cbn [offered_schedule AutoClaimSchedule.address AutoClaimSchedule.network].
    now rewrite He.
  - intro He.
    apply (upsert_schedule_conflict (offered_schedule ck address network));
      [reflexivity | reflexivity | exact He].
  - unfold same_outside_schedule. cbn. auto.
Qed.

(** C6 (amended).  Two consecutive schedule calls for the same valid
    address and network, on a reachable store whose schedule table respects
    its primary key, leave exactly one row for the pair, and its
    [next_claim_time] is the second call's clock reading plus the fixed
    interval of one day and twelve minutes. *)
Theorem schedule_twice_single_row (ck1 ck2 : Clock) (data1 data2 : Data) (w : World)
    (address network : string) :
  address_of data1 = inr address ->
  address_of data2 = inr address ->
  invalid_address address = false ->
  network_of data1 = inr network ->
  network_of data2 = inr network ->
  supported_network network = true ->
  reachable w = true ->
  pk_auto_claim_schedule (auto_claim_schedule (db w)) ->
  let w1 := snd (post_auto_claim_schedule ck1 data1 w) in
  let w2 := snd (post_auto_claim_schedule ck2 data2 w1) in
  exists r,
    filter (same_schedule address network) (auto_claim_schedule (db w2)) = [r]
    /\ AutoClaimSchedule.next_claim_time r
       = Some (datetime_now ck2 1 + 87120000000)%Z
    /\ pk_auto_claim_schedule (auto_claim_schedule (db w2)).
Proof.
  intros Ha1 Ha2 Hv Hn1 Hn2 Hs Hr Hpk. cbv zeta.
  rewrite (post_auto_claim_schedule_ok ck1 data1 w address network Ha1 Hv Hn1 Hs Hr).
  cbn [snd].
  match goal with
  | |- context [post_auto_claim_schedule ck2 data2 ?w1] =>
      rewrite (post_auto_claim_schedule_ok ck2 data2 w1 address network
                 Ha2 Hv Hn2 Hs eq_refl)
  end.
  cbn [snd db with_auto_claim_schedule auto_claim_schedule].
  pose proof (upsert_schedule_pk (offered_schedule ck1 address network) _ Hpk) as Hpk1.
  destruct (upsert_schedule_single (offered_schedule ck2 address network) _ Hpk1)
    as (r & Hf & _ & Hnext).
  exists r. split; [exact Hf | split].
  - rewrite Hnext. reflexivity.
  - now apply upsert_schedule_pk.
Qed.

(** C7.  A schedule call whose lower-cased network is not one of [celo],
    [fuse] is answered with a failure and leaves the world as it was: no
    connection is opened and no row is created or modified.  With a valid
    address the failure carries the message of the network check. *)
Theorem unsupported_network_rejected (ck : Clock) (data : Data) (w : World)
    (network : string) :
  network_of data = inr network ->
  supported_network network = false ->
  (exists msg, post_auto_claim_schedule ck data w = (Sent 500 (PFailure msg), w))
  /\ (forall address,
        address_of data = inr address ->
        invalid_address address = false ->
        post_auto_claim_schedule ck data w
        = (Sent 500 (PFailure "Network must be celo or fuse"), w)).
Proof.
  intros Hn Hs.
  unfold post_auto_claim_schedule, try_except, bind, lift.
  unfold network_of in Hn. unfold address_of.
  destruct (py_lower (get (d_address data) (PyStr ""))) as [e | a].
  - split; [eexists; reflexivity | intros ? H; discriminate H].
  - rewrite Hn, Hs. cbn [negb].
    destruct (invalid_address a) eqn:Hv.
    + split; [eexists; reflexivity |].
      intros address H Hv'. injection H as <-. congruence.
    + split; [eexists; reflexivity | intros; reflexivity].
Qed.

(** ** Verification registry *)

Lemma same_address_spec (addr : string) (x : PermanentVerified.row) :
  (PermanentVerified.address x =? addr) = true <-> PermanentVerified.address x = addr.
Proof. apply String.eqb_eq. Qed.

Section PermanentUpsert.
  Variables (addr : string) (verified stamp : Z).
  Local Abbreviation holds := (fun x => PermanentVerified.address x =? addr).
  Local Abbreviation refreshed := (on_conflict_permanent_verified addr stamp).

Lemma refreshed_key (x : PermanentVerified.row) :
  PermanentVerified.address (refreshed x) = PermanentVerified.address x.
Proof.
  unfold on_conflict_permanent_verified.
  now destruct (PermanentVerified.address x =? addr).
Qed.

Lemma refreshed_holds (x : PermanentVerified.row) : holds (refreshed x) = holds x.
Proof. cbv beta. now rewrite refreshed_key. Qed.

Lemma upsert_permanent_pk (t : list PermanentVerified.row) :
  pk_permanent_verified t ->
  pk_permanent_verified (upsert_permanent_verified addr verified stamp t).
Proof.
  unfold pk_permanent_verified, upsert_permanent_verified. intro Hnd.
  destruct (existsb holds t) eqn:He.
  - rewrite (keyed_map_keys PermanentVerified.address refreshed t refreshed_key).
    exact Hnd.
  - apply (keyed_snoc PermanentVerified.address holds addr (same_address_spec addr));
      [reflexivity | exact He | exact Hnd].
Qed.

Lemma upsert_permanent_repeat (t : list PermanentVerified.row) :
  pk_permanent_verified t ->
  existsb holds t = true ->
  List.length (upsert_permanent_verified addr verified stamp t) = List.length t
  /\ exists r,
       filter holds (upsert_permanent_verified addr verified stamp t) = [r]
       /\ PermanentVerified.verified_at r = Some stamp
       /\ PermanentVerified.expires_at r = None.
Proof.
  unfold pk_permanent_verified, upsert_permanent_verified. intros Hnd He.
  rewrite He. split; [apply length_map |].
  destruct (keyed_filter_present PermanentVerified.address holds addr
              (same_address_spec addr) t Hnd He) as (x & Hx).
  exists (refreshed x).
  rewrite (keyed_filter_map holds refreshed t refreshed_holds), Hx.
  assert (Hsx : holds x = true).
  { assert (Hin : In x (filter holds t)) by (rewrite Hx; now left).
    now apply filter_In in Hin. }
  cbv beta in Hsx. unfold on_conflict_permanent_verified. simpl.
  rewrite !Hsx. simpl. auto.
Qed.

Lemma upsert_permanent_present (t : list PermanentVerified.row) :
  existsb holds (upsert_permanent_verified addr verified stamp t) = true.
Proof.
  unfold upsert_permanent_verified.
  destruct (existsb holds t) eqn:He.
  - apply existsb_exists in He as (x & Hin & Hx).
    apply existsb_exists. exists (refreshed x). split.
    + now apply in_map.
    + now rewrite refreshed_holds.
  - rewrite existsb_app. simpl. now rewrite String.eqb_refl, orb_true_r.
Qed.

End PermanentUpsert.

Lemma post_permanent_verified_add_ok (ck : Clock) (data : Data) (w : World)
    (address : string) :
  address_of data = inr address ->
  invalid_address address = false ->
  eq_str (get (d_action data) (PyStr "add")) "add" = true ->
  reachable w = true ->
  post_permanent_verified ck data w
  = (Sent 200 (PVerified address),
     {| db := with_permanent_verified (db w)
                (upsert_permanent_verified address
                   (datetime_now ck 0) (current_timestamp ck 0)
                   (permanent_verified (db w)));
        reachable := true;
        connections := S (connections w) |}).
Proof.
  intros Ha Hv Hact Hr.
  unfold post_permanent_verified, try_except, bind, lift.
  unfold address_of in Ha. rewrite Ha, Hv.
  unfold get_db_connection, commit, ret, set_db. rewrite Hr, Hact. cbn.
  rewrite (py_lower_fixed _ _ Ha). reflexivity.
Qed.

Lemma post_permanent_verified_reachable (ck : Clock) (data : Data) (w : World) :
  reachable (snd (post_permanent_verified ck data w)) = reachable w.
Proof.
  unfold post_permanent_verified, try_except, bind, lift, raise,
    get_db_connection, commit, ret, set_db.
  destruct (py_lower (get (d_address data) (PyStr ""))) as [e | a]; [reflexivity |].
  destruct (invalid_address a); [reflexivity |].
  destruct (reachable w); [| reflexivity].
  destruct (eq_str (get (d_action data) (PyStr "add")) "add"); [reflexivity |].
  destruct (eq_str (get (d_action data) (PyStr "add")) "list"); reflexivity.
Qed.

Lemma post_permanent_verified_pk (ck : Clock) (data : Data) (w : World) :
  pk_permanent_verified (permanent_verified (db w)) ->
  pk_permanent_verified
    (permanent_verified (db (snd (post_permanent_verified ck data w)))).
Proof.
  intro Hpk.
  unfold post_permanent_verified, try_except, bind, lift, raise,
    get_db_connection, commit, ret, set_db.
  destruct (py_lower (get (d_address data) (PyStr ""))) as [e | a]; [exact Hpk |].
  destruct (invalid_address a); [exact Hpk |].
  destruct (reachable w); [| exact Hpk].
  destruct (eq_str (get (d_action data) (PyStr "add")) "add").
  - cbn. now apply upsert_permanent_pk.
  - destruct (eq_str (get (d_action data) (PyStr "add")) "list"); exact Hpk.
Qed.

Lemma serve_permanent_verified_pk (calls : list (Clock * Data)) :
  forall w,
    pk_permanent_verified (permanent_verified (db w)) ->
    pk_permanent_verified
      (permanent_verified (db (serve_permanent_verified calls w))).
Proof.
  induction calls as [| [ck data] rest IH]; intros w Hpk; simpl.
  - exact Hpk.
  - apply IH. now apply post_permanent_verified_pk.
Qed.

Lemma serve_permanent_verified_reachable (calls : list (Clock * Data)) :
  forall w, reachable (serve_permanent_verified calls w) = reachable w.
Proof.
  induction calls as [| [ck data] rest IH]; intro w; simpl.
  - reflexivity.
  - rewrite IH. apply post_permanent_verified_reachable.
Qed.

(** C9.  From a store whose registry respects its primary key, any sequence
    of [/api/permanent-verified] requests leaves at most one row per address.
    A mark for an address followed by a second mark for it leaves the number
    of rows unchanged and exactly one row for the address, whose
    [verified_at] is the engine's time at the second call and whose
    [expires_at] is [NULL]. *)
Theorem mark_permanent_single_row (calls : list (Clock * Data))
    (ck ck' : Clock) (data data' : Data) (w : World) (address : string) :
  pk_permanent_verified (permanent_verified (db w)) ->
  reachable w = true ->
  address_of data = inr address ->
  address_of data' = inr address ->
  invalid_address address = false ->
  eq_str (get (d_action data) (PyStr "add")) "add" = true ->
  eq_str (get (d_action data') (PyStr "add")) "add" = true ->
  let w1 := serve_permanent_verified calls w in
  let w2 := snd (post_permanent_verified ck data w1) in
  let w3 := snd (post_permanent_verified ck' data' w2) in
  pk_permanent_verified (permanent_verified (db w1))
  /\ pk_permanent_verified (permanent_verified (db w3))
  /\ List.length (permanent_verified (db w3)) = List.length (permanent_verified (db w2))
  /\ exists r,
       filter (fun x => PermanentVerified.address x =? address)
         (permanent_verified (db w3)) = [r]
       /\ PermanentVerified.verified_at r = Some (current_timestamp ck' 0)
       /\ PermanentVerified.expires_at r = None.
Proof.
  intros Hpk Hr Ha Ha' Hv Hadd Hadd'. cbv zeta.
  pose proof (serve_permanent_verified_pk calls w Hpk) as Hpk1.
  pose proof (serve_permanent_verified_reachable calls w) as Hr1.
  rewrite Hr in Hr1.
  set (w1 := serve_permanent_verified calls w) in *.
  split; [exact Hpk1 |].
  rewrite (post_permanent_verified_add_ok ck data w1 address Ha Hv Hadd Hr1).
  cbn [snd].
  match goal with
  | |- context [post_permanent_verified ck' data' ?w2] =>
      rewrite (post_permanent_verified_add_ok ck' data' w2 address
                 Ha' Hv Hadd' eq_refl)
  end.
  cbn [snd db with_permanent_verified permanent_verified].
  set (t2 := upsert_permanent_verified address (datetime_now ck 0)
               (current_timestamp ck 0) (permanent_verified (db w1))).
  assert (Hpk2 : pk_permanent_verified t2) by now apply upsert_permanent_pk.
  assert (He2 : existsb (fun x => PermanentVerified.address x =? address) t2 = true)
    by apply upsert_permanent_present.
  split; [now apply upsert_permanent_pk |].
  apply upsert_permanent_repeat; assumption.
Qed.

(** ** Status toggle and query *)

Section DisabledMarker.
  Variable addr : string.
  Local Abbreviation marked := (fun x => DisabledKeys.key_address x =? addr).

Lemma find_marked_existsb (t : list DisabledKeys.row) :
  match find marked t with Some _ => true | None => false end = existsb marked t.
Proof.
  induction t as [| x t IH]; simpl.
  - reflexivity.
  - destruct (DisabledKeys.key_address x =? addr); [reflexivity | exact IH].
Qed.

Lemma insert_disabled_key_marked (why : string) (t : list DisabledKeys.row) :
  existsb marked (insert_disabled_key addr why t) = true.
Proof.
  unfold insert_disabled_key. destruct (existsb marked t) eqn:He.
  - exact He.
  - rewrite existsb_app. simpl. now rewrite String.eqb_refl, orb_true_r.
Qed.

Lemma insert_disabled_key_idle (why : string) (t : list DisabledKeys.row) :
  existsb marked t = true -> insert_disabled_key addr why t = t.
Proof.
  intro He. unfold insert_disabled_key. now rewrite He.
Qed.

Lemma delete_disabled_key_unmarked (t : list DisabledKeys.row) :
  existsb marked (delete_disabled_key addr t) = false.
Proof.
  unfold delete_disabled_key. induction t as [| x t IH]; simpl.
  - reflexivity.
  - destruct (DisabledKeys.key_address x =? addr) eqn:Hx; simpl.
    + exact IH.
    + now rewrite Hx, IH.
Qed.

Lemma delete_disabled_key_idle (t : list DisabledKeys.row) :
  existsb marked t = false -> delete_disabled_key addr t = t.
Proof.
  unfold delete_disabled_key. induction t as [| x t IH]; simpl; intro He.
  - reflexivity.
  - apply orb_false_iff in He as [Hx He]. rewrite Hx. simpl. now rewrite IH.
Qed.

End DisabledMarker.

Lemma with_disabled_keys_same (st : Store) : with_disabled_keys st (disabled_keys st) = st.
Proof. now destruct st. Qed.

Lemma post_check_key_status_ok (data : Data) (w : World) (address : string) :
  address_of data = inr address ->
  address <> "" ->
  reachable w = true ->
  post_check_key_status data w
  = (Sent 200 (PKeyStatus
                 (existsb (fun x => DisabledKeys.key_address x =? address)
                    (disabled_keys (db w)))
                 address),
     {| db := db w; reachable := true; connections := S (connections w) |}).
Proof.
  intros Ha Hne Hr.
  unfold post_check_key_status, try_except, bind, lift.
  unfold address_of in Ha. rewrite Ha.
  apply String.eqb_neq in Hne. rewrite Hne.
  unfold get_db_connection, ret, select_disabled_key. rewrite Hr. cbn.
  now rewrite find_marked_existsb.
Qed.

Lemma post_toggle_disable_ok (data : Data) (w : World) (address : string) :
  address_of data = inr address ->
  address <> "" ->
  toggle_action_of data = inr "disable" ->
  reachable w = true ->
  post_toggle_key_status data w
  = (Sent 200 (PToggled "disabled" address),
     {| db := with_disabled_keys (db w)
                (insert_disabled_key address "Disabled by user"
                   (disabled_keys (db w)));
        reachable := true;
        connections := S (connections w) |}).
Proof.
  intros Ha Hne Hact Hr.
  unfold post_toggle_key_status, try_except, bind, lift.
  unfold address_of in Ha. unfold toggle_action_of in Hact. rewrite Ha, Hact.
  apply String.eqb_neq in Hne. rewrite Hne.
  unfold get_db_connection, commit, ret, set_db. cbn. rewrite Hr. reflexivity.
Qed.

Lemma post_toggle_enable_ok (data : Data) (w : World) (address : string) :
  address_of data = inr address ->
  address <> "" ->
  toggle_action_of data = inr "enable" ->
  reachable w = true ->
  post_toggle_key_status data w
  = (Sent 200 (PToggled "enabled" address),
     {| db := with_disabled_keys (db w)
                (delete_disabled_key address (disabled_keys (db w)));
        reachable := true;
        connections := S (connections w) |}).
Proof.
  intros Ha Hne Hact Hr.
  unfold post_toggle_key_status, try_except, bind, lift.
  unfold address_of in Ha. unfold toggle_action_of in Hact. rewrite Ha, Hact.
  apply String.eqb_neq in Hne. rewrite Hne.
  unfold get_db_connection, commit, ret, set_db. cbn. rewrite Hr. reflexivity.
Qed.

(** C8.  For a non-empty address on a reachable store: after a disable the
    status query answers [disabled = true]; after an enable it answers
    [disabled = false]; a disable of an address already disabled succeeds and
    leaves the store as it was; an enable of an address that is not disabled
    succeeds and leaves the store as it was. *)
Theorem disable_enable_round_trip (dis en chk : Data) (w : World) (address : string) :
  address_of dis = inr address ->
  address_of en = inr address ->
  address_of chk = inr address ->
  address <> "" ->
  toggle_action_of dis = inr "disable" ->
  toggle_action_of en = inr "enable" ->
  reachable w = true ->
  let is_disabled := fun w0 => fst (post_check_key_status chk w0) in
  is_disabled (snd (post_toggle_key_status dis w))
    = Sent 200 (PKeyStatus true address)
  /\ is_disabled (snd (post_toggle_key_status en w))
     = Sent 200 (PKeyStatus false address)
  /\ (is_disabled w = Sent 200 (PKeyStatus true address) ->
      fst (post_toggle_key_status dis w) = Sent 200 (PToggled "disabled" address)
      /\ db (snd (post_toggle_key_status dis w)) = db w)
  /\ (is_disabled w = Sent 200 (PKeyStatus false address) ->
      fst (post_toggle_key_status en w) = Sent 200 (PToggled "enabled" address)
      /\ db (snd (post_toggle_key_status en w)) = db w).
Proof.
  intros Hd He Hc Hne Hdis Hen Hr. cbv zeta beta.
  rewrite (post_toggle_disable_ok dis w address Hd Hne Hdis Hr).
  rewrite (post_toggle_enable_ok en w address He Hne Hen Hr).
  rewrite (post_check_key_status_ok chk w address Hc Hne Hr).
  cbn [fst snd].
  split; [| split; [| split]].
  - match goal with
    | |- context [post_check_key_status chk ?w0] =>
        rewrite (post_check_key_status_ok chk w0 address Hc Hne eq_refl)
    end.
    cbn [fst db with_disabled_keys disabled_keys].
    now rewrite insert_disabled_key_marked.
  - match goal with
    | |- context [post_check_key_status chk ?w0] =>
        rewrite (post_check_key_status_ok chk w0 address Hc Hne eq_refl)
    end.
    cbn [fst db with_disabled_keys disabled_keys].
    now rewrite delete_disabled_key_unmarked.
  - intro Hs. injection Hs as Hm. split; [reflexivity |]. cbn [db].
    rewrite insert_disabled_key_idle by exact Hm.
    apply with_disabled_keys_same.
  - intro Hs. injection Hs as Hm. split; [reflexivity |]. cbn [db].
    rewrite delete_disabled_key_idle by exact Hm.
    apply with_disabled_keys_same.
Qed.

(** ** The address check *)

(** C10.  With the lower-cased address [address] of the request either empty
    or not starting with [0x], [/api/permanent-verified] and
    [/api/auto-claim-schedule] answer with a failure and leave the world as it
    was (no connection opened, no row written).  [/api/check-key-status] asks
    only for a non-empty address: it goes on to the store, and on a reachable
    store answers with the status. *)
Theorem address_gate (ck : Clock) (data : Data) (w : World) (address : string) :
  address_of data = inr address ->
  (address = "" \/ startswith address "0x" = false ->
     post_permanent_verified ck data w
     = (Sent 500 (PFailure "Invalid address"), w)
     /\ post_auto_claim_schedule ck data w
        = (Sent 500 (PFailure (match network_of data with
                               | inr _ => "Invalid address"
                               | inl e => slice_to 100 (str e)
                               end)), w))
  /\ (address <> "" ->
      connections (snd (post_check_key_status data w)) = S (connections w)
      /\ (reachable w = true ->
          exists disabled,
            fst (post_check_key_status data w)
            = Sent 200 (PKeyStatus disabled address))).
Proof.
  intro Ha. split.
  - intro Hbad.
    assert (Hv : invalid_address address = true).
    { unfold invalid_address. destruct Hbad as [-> | ->]; [reflexivity |].
      apply orb_true_r. }
    unfold post_permanent_verified, post_auto_claim_schedule, try_except, bind, lift.
    unfold address_of in Ha. unfold network_of. rewrite Ha, Hv.
    split; [reflexivity |].
    destruct (py_lower (get (d_network data) (PyStr "celo"))); reflexivity.
  - intro Hne. split.
    + unfold post_check_key_status, try_except, bind, lift.
      unfold address_of in Ha. rewrite Ha.
      apply String.eqb_neq in Hne. rewrite Hne.
      unfold get_db_connection. destruct (reachable w); reflexivity.
    + intro Hr. rewrite (post_check_key_status_ok data w address Ha Hne Hr).
      eexists; reflexivity.
Qed.

(** ** Bulk retrieval and purge behind the gate

    The statements hold for any digest function. *)

Section GateProperties.
  Variable sha256_hexdigest : string -> string.
  Local Abbreviation validate := (validate_password sha256_hexdigest).
  Local Abbreviation fetch_keys := (post_fetch_keys sha256_hexdigest).
  Local Abbreviation clear_keys := (post_clear_keys sha256_hexdigest).

(** On a world whose tables all exist: when the password validates and no
    connection can be obtained, [/api/fetch-keys] answers 200 with an empty
    list of keys, and the store is as it was. *)
Theorem fetch_keys_degraded (data : Data) (w : World) :
  validate (password_of data) = inr true ->
  reachable w = false ->
  fst (fetch_keys data w) = Sent 200 (PKeys [])
  /\ db (snd (fetch_keys data w)) = db w.
Proof.
  intros Hok Hr.
  unfold post_fetch_keys, try_except, bind, lift.
  unfold password_of in Hok. rewrite Hok. cbn [negb].
  unfold get_db_connection. rewrite Hr. split; reflexivity.
Qed.


(** C5.  When the password validates and the store is reachable,
    [/api/clear-keys] answers 200 with [deleted] the number of rows
    [secret_keys] held, leaves [secret_keys] empty, and leaves the other four
    tables as they were. *)
Theorem clear_keys_frame (data : Data) (w : World) :
  validate (password_of data) = inr true ->
  reachable w = true ->
  let st' := db (snd (clear_keys data w)) in
  fst (clear_keys data w) = Sent 200 (PDeleted (List.length (secret_keys (db w))))
  /\ secret_keys st' = []
  /\ disabled_keys st' = disabled_keys (db w)
  /\ permanent_verified st' = permanent_verified (db w)
  /\ auto_claim_schedule st' = auto_claim_schedule (db w)
  /\ app_settings st' = app_settings (db w).
Proof.
  intros Hok Hr. cbv zeta.
  unfold post_clear_keys, try_except, bind, lift.
  unfold password_of in Hok. rewrite Hok. cbn [negb].
  unfold get_db_connection. rewrite Hr. cbn. repeat split; reflexivity.
Qed.

End GateProperties.

(** * The statements at concrete requests *)

(** A second registration of [0xabc] on [celo], one day after the first. *)
Lemma schedule_call_upserts_example :
  let ck := wall_clock 500 in
  let data := schedule_request "0xABC" "Celo" in
  let w := online yesterday_schedule in
  let t := auto_claim_schedule (db w) in
  let st' := db (snd (post_auto_claim_schedule ck data w)) in
  let next := (datetime_now ck 1 + timedelta 1 0 12)%Z in
  (existsb (same_schedule "0xabc" "celo") t = false ->
     auto_claim_schedule st'
     = t ++ [{| AutoClaimSchedule.address := "0xabc";
                AutoClaimSchedule.network := "celo";
                AutoClaimSchedule.enabled := Some true;
                AutoClaimSchedule.last_claim := Some (datetime_now ck 0);
                AutoClaimSchedule.next_claim_time := Some next |}])
  /\ (existsb (same_schedule "0xabc" "celo") t = true ->
        Forall2 (schedule_row_updated "0xabc" "celo" next)
          t (auto_claim_schedule st'))
  /\ same_outside_schedule (db w) st'.
Proof.
  exact (schedule_call_upserts (wall_clock 500) (schedule_request "0xABC" "Celo")
           (online yesterday_schedule) "0xabc" "celo"
           eq_refl eq_refl eq_refl eq_refl eq_refl).
Defined.

(** Two registrations of the same pair, spelled in different cases. *)
Lemma schedule_twice_single_row_example :
  let w1 := snd (post_auto_claim_schedule (wall_clock 0)
                   (schedule_request "0xABC" "celo") (online busy_store)) in
  let w2 := snd (post_auto_claim_schedule (wall_clock 1000)
                   (schedule_request "0xabc" "CELO") w1) in
  exists r,
    filter (same_schedule "0xabc" "celo") (auto_claim_schedule (db w2)) = [r]
    /\ AutoClaimSchedule.next_claim_time r
       = Some (datetime_now (wall_clock 1000) 1 + 87120000000)%Z
    /\ pk_auto_claim_schedule (auto_claim_schedule (db w2)).
Proof.
  apply (schedule_twice_single_row (wall_clock 0) (wall_clock 1000)
           (schedule_request "0xABC" "celo") (schedule_request "0xabc" "CELO")
           (online busy_store) "0xabc" "celo"); try reflexivity.
  unfold pk_auto_claim_schedule. simpl.
  constructor; [intros [] | constructor].
Defined.

(** A registration on [ethereum]. *)
Lemma unsupported_network_rejected_example :
  (exists msg,
      post_auto_claim_schedule (wall_clock 0) (schedule_request "0xabc" "ethereum")
        (online busy_store)
      = (Sent 500 (PFailure msg), online busy_store))
  /\ (forall address,
        address_of (schedule_request "0xabc" "ethereum") = inr address ->
        invalid_address address = false ->
        post_auto_claim_schedule (wall_clock 0) (schedule_request "0xabc" "ethereum")
          (online busy_store)
        = (Sent 500 (PFailure "Network must be celo or fuse"), online busy_store)).
Proof.
  exact (unsupported_network_rejected (wall_clock 0)
           (schedule_request "0xabc" "ethereum") (online busy_store) "ethereum"
           eq_refl eq_refl).
Defined.

(** Toggling [0xabc] in a store where another address is disabled. *)
Lemma disable_enable_round_trip_example :
  let dis := toggle_request "0xABC" "disable" in
  let en := toggle_request "0xabc" "Enable" in
  let chk := address_request "0xabc" in
  let w := online busy_store in
  let is_disabled := fun w0 => fst (post_check_key_status chk w0) in
  is_disabled (snd (post_toggle_key_status dis w))
    = Sent 200 (PKeyStatus true "0xabc")
  /\ is_disabled (snd (post_toggle_key_status en w))
     = Sent 200 (PKeyStatus false "0xabc")
  /\ (is_disabled w = Sent 200 (PKeyStatus true "0xabc") ->
      fst (post_toggle_key_status dis w) = Sent 200 (PToggled "disabled" "0xabc")
      /\ db (snd (post_toggle_key_status dis w)) = db w)
  /\ (is_disabled w = Sent 200 (PKeyStatus false "0xabc") ->
      fst (post_toggle_key_status en w) = Sent 200 (PToggled "enabled" "0xabc")
      /\ db (snd (post_toggle_key_status en w)) = db w).
Proof.
  apply (disable_enable_round_trip (toggle_request "0xABC" "disable")
           (toggle_request "0xabc" "Enable") (address_request "0xabc")
           (online busy_store) "0xabc"); try reflexivity.
  discriminate.
Defined.

(** Three earlier requests, one of them invalid, then [0xabc] marked twice. *)
Lemma mark_permanent_single_row_example :
  let calls := [(wall_clock 1, address_request "0xDEF");
                (wall_clock 2, address_request "0x123");
                (wall_clock 3, address_request "nonsense")] in
  let w1 := serve_permanent_verified calls (online busy_store) in
  let w2 := snd (post_permanent_verified (wall_clock 10) (address_request "0xabc") w1) in
  let w3 := snd (post_permanent_verified (wall_clock 20) (address_request "0xABC") w2) in
  pk_permanent_verified (permanent_verified (db w1))
  /\ pk_permanent_verified (permanent_verified (db w3))
  /\ List.length (permanent_verified (db w3)) = List.length (permanent_verified (db w2))
  /\ exists r,
       filter (fun x => PermanentVerified.address x =? "0xabc")
         (permanent_verified (db w3)) = [r]
       /\ PermanentVerified.verified_at r = Some (current_timestamp (wall_clock 20) 0)
       /\ PermanentVerified.expires_at r = None.
Proof.
  apply (mark_permanent_single_row
           [(wall_clock 1, address_request "0xDEF");
            (wall_clock 2, address_request "0x123");
            (wall_clock 3, address_request "nonsense")]
           (wall_clock 10) (wall_clock 20)
           (address_request "0xabc") (address_request "0xABC")
           (online busy_store) "0xabc"); try reflexivity.
  unfold pk_permanent_verified. simpl.
  constructor; [intros [] | constructor].
Defined.

(** The address [ABC], without prefix. *)
Lemma address_gate_example :
  (("abc" = "" \/ startswith "abc" "0x" = false ->
     post_permanent_verified (wall_clock 0) (address_request "ABC") (online busy_store)
     = (Sent 500 (PFailure "Invalid address"), online busy_store)
     /\ post_auto_claim_schedule (wall_clock 0) (address_request "ABC") (online busy_store)
        = (Sent 500 (PFailure (match network_of (address_request "ABC") with
                               | inr _ => "Invalid address"
                               | inl e => slice_to 100 (str e)
                               end)), online busy_store))
  /\ ("abc" <> "" ->
      connections (snd (post_check_key_status (address_request "ABC") (online busy_store)))
      = S (connections (online busy_store))
      /\ (reachable (online busy_store) = true ->
          exists disabled,
            fst (post_check_key_status (address_request "ABC") (online busy_store))
            = Sent 200 (PKeyStatus disabled "abc")))).
Proof.
  exact (address_gate (wall_clock 0) (address_request "ABC") (online busy_store)
           "abc" eq_refl).
Defined.

(** The right password while the store cannot be reached. *)
Lemma fetch_keys_degraded_example :
  fst (post_fetch_keys plain_digest (password_request "963050") (offline busy_store))
    = Sent 200 (PKeys [])
  /\ db (snd (post_fetch_keys plain_digest (password_request "963050")
                (offline busy_store)))
     = db (offline busy_store).
Proof.
  exact (fetch_keys_degraded plain_digest (password_request "963050")
           (offline busy_store) eq_refl eq_refl).
Defined.


(** The right password on a store with rows in every table. *)
Lemma clear_keys_frame_example :
  let w := online busy_store in
  let data := password_request "963050" in
  let st' := db (snd (post_clear_keys plain_digest data w)) in
  fst (post_clear_keys plain_digest data w)
    = Sent 200 (PDeleted (List.length (secret_keys (db w))))
  /\ secret_keys st' = []
  /\ disabled_keys st' = disabled_keys (db w)
  /\ permanent_verified st' = permanent_verified (db w)
  /\ auto_claim_schedule st' = auto_claim_schedule (db w)
  /\ app_settings st' = app_settings (db w).
Proof.
  exact (clear_keys_frame plain_digest (password_request "963050")
           (online busy_store) eq_refl eq_refl).
Defined.

(** * Further properties of the handlers *)

(** ** Credential ingest: validation, skipping, rollback *)

Lemma insert_or_ignore_extends (ts : Z) (key src dev stat : string)
    (t : list SecretKeys.row * Z) :
  exists new,
    fst (fst (insert_or_ignore_secret_key ts key src dev stat t)) = fst t ++ new.
Proof.
  destruct t as [rows seq]. unfold insert_or_ignore_secret_key.
  destruct (existsb _ rows); simpl.
  - exists []. now rewrite app_nil_r.
  - eexists; reflexivity.
Qed.

Lemma save_key_extends (ck : Clock) (src dev stat : string) (i : nat)
    (key : pyval) (t t' : list SecretKeys.row * Z) (saved saved' : nat) :
  save_key ck src dev stat i key (t, saved) = inr (t', saved') ->
  exists new, fst t' = fst t ++ new.
Proof.
  unfold save_key.
  assert (Hsame : forall a b : (list SecretKeys.row * Z) * nat,
             @inr exn _ (t, saved) = inr (t', saved') ->
             exists new, fst t' = fst t ++ new).
  { intros _ _ H. injection H as <- _. exists []. now rewrite app_nil_r. }
  destruct (truthy key); [| now apply Hsame].
  destruct (py_len key) as [e | n]; [discriminate |].
  destruct (0 <? n)%nat; [| now apply Hsame].
  destruct key; try now apply Hsame.
  destruct (insert_or_ignore_extends (current_timestamp ck i) s src dev stat t)
    as (new & Hnew).
  destruct (insert_or_ignore_secret_key (current_timestamp ck i) s src dev stat t)
    as [t1 rowcount].
  intro H. injection H as <- _. exists new. exact Hnew.
Qed.

Lemma save_loop_extends (ck : Clock) (src dev stat : string) (keys : list pyval) :
  forall (i : nat) (t t' : list SecretKeys.row * Z) (saved saved' : nat),
    save_loop ck src dev stat i keys (t, saved) = inr (t', saved') ->
    exists new, fst t' = fst t ++ new.
Proof.
  induction keys as [| key rest IH]; intros i t t' saved saved'; cbn [save_loop].
  - intro H. injection H as <- _. exists []. now rewrite app_nil_r.
  - destruct (save_key ck src dev stat i key (t, saved)) as [e | [t1 saved1]] eqn:Hk;
      [discriminate |].
    intro H. apply save_key_extends in Hk as (new1 & H1).
    apply IH in H as (new2 & H2).
    exists (new1 ++ new2). now rewrite H2, H1, app_assoc.
Qed.

(** A save request only ever appends to [secret_keys]: the rows already
    stored stay where they are, and no other table changes. *)
Theorem save_keys_append_only (ck : Clock) (data : Data) (w : World) :
  let st' := db (snd (post_save_keys ck data w)) in
  (exists new, secret_keys st' = secret_keys (db w) ++ new)
  /\ same_outside_secret_keys (db w) st'.
Proof.
  cbv zeta.
  unfold post_save_keys, try_except, bind, get_db_connection, commit, ret, set_db,
    same_outside_secret_keys.
  assert (Hid : forall st : Store,
             (exists new, secret_keys st = secret_keys st ++ new)
             /\ app_settings st = app_settings st
             /\ permanent_verified st = permanent_verified st
             /\ auto_claim_schedule st = auto_claim_schedule st
             /\ disabled_keys st = disabled_keys st).
  { intro st. split; [exists []; now rewrite app_nil_r | auto]. }
  destruct (negb (truthy (get (d_keys data) (PyList [])))
            || negb (is_list (get (d_keys data) (PyList [])))); [apply Hid |].
  destruct (reachable w); [| apply Hid].
  destruct (save_loop _ _ _ _ _ _ _) as [e | [[rows seq] saved]] eqn:Hl;
    [apply Hid |].
  apply save_loop_extends in Hl as (new & Hnew). simpl in Hnew.
  cbn. split; [exists new; exact Hnew | auto].
Qed.

(** A request whose [keys] is missing, empty or not a list is answered 400
    before any connection is opened. *)
Theorem save_keys_invalid_format (ck : Clock) (data : Data) (w : World) :
  (forall k ks, get (d_keys data) (PyList []) <> PyList (k :: ks)) ->
  post_save_keys ck data w = (Sent 400 (PError "Invalid keys format"), w).
Proof.
  intro Hbad. unfold post_save_keys, try_except, bind, ret.
  destruct (get (d_keys data) (PyList [])) as [| b | n | s | l | l] eqn:Hk;
    cbn [truthy is_list negb orb];
    try (rewrite orb_true_r); try reflexivity.
  destruct l as [| k ks]; [reflexivity |].
  exfalso. exact (Hbad k ks eq_refl).
Qed.




Lemma save_key_sized (ck : Clock) (src dev stat : string) (i : nat)
    (key : pyval) (acc : (list SecretKeys.row * Z) * nat) :
  sized key = true ->
  exists acc', save_key ck src dev stat i key acc = inr acc'.
Proof.
  destruct acc as [t saved]. unfold sized, save_key. intro Hs.
  destruct (truthy key); [| eexists; reflexivity].
  destruct (py_len key) as [e | n]; [discriminate Hs |].
  destruct (0 <? n)%nat; [| eexists; reflexivity].
  destruct key; try (eexists; reflexivity).
  destruct (insert_or_ignore_secret_key _ _ _ _ _ _). eexists; reflexivity.
Qed.

Lemma save_loop_raises (ck : Clock) (src dev stat : string)
    (pre post : list pyval) (v : pyval) (e : exn) :
  forallb sized pre = true ->
  truthy v = true ->
  py_len v = inl e ->
  forall (i : nat) (acc : (list SecretKeys.row * Z) * nat),
    save_loop ck src dev stat i (pre ++ v :: post) acc = inl e.
Proof.
  intros Hpre Hv He. induction pre as [| key rest IH]; intros i acc.
  - destruct acc as [t saved]. cbn [app save_loop]. unfold save_key.
    now rewrite Hv, He.
  - simpl in Hpre. apply andb_true_iff in Hpre as [Hk Hrest].
    cbn [app save_loop].
    destruct (save_key_sized ck src dev stat i key acc Hk) as (acc' & ->).
    now apply IH.
Qed.

(** A batch that contains [True] or a non-zero number is answered 500 with
    the [TypeError] of [len], and nothing of the batch is stored, not even
    the valid secrets that came before the offending element. *)
Theorem save_keys_all_or_nothing (ck : Clock) (data : Data) (w : World)
    (pre post : list pyval) (v : pyval) (e : exn) :
  get (d_keys data) (PyList []) = PyList (pre ++ v :: post) ->
  forallb sized pre = true ->
  truthy v = true ->
  py_len v = inl e ->
  reachable w = true ->
  fst (post_save_keys ck data w) = Sent 500 (PError (slice_to 100 (str e)))
  /\ db (snd (post_save_keys ck data w)) = db w.
Proof.
  intros Hk Hpre Hv He Hr.
  unfold post_save_keys, try_except, bind, get_db_connection.
  rewrite Hk.
  assert (Hl : truthy (PyList (pre ++ v :: post)) = true)
    by (destruct pre; reflexivity).
  rewrite Hl. cbn [is_list negb orb items]. rewrite Hr.
  rewrite (save_loop_raises ck _ _ _ pre post v e Hpre Hv He).
  split; reflexivity.
Qed.

(** ** Ordered selection *)

Lemma ts_ltb_asym (a b : option Z) : ts_ltb a b = true -> ts_ltb b a = false.
Proof.
  destruct a as [x |], b as [y |]; simpl; try congruence.
  intro H. apply Z.ltb_lt in H. apply Z.ltb_ge. lia.
Qed.

Lemma ts_ltb_above (a b c : option Z) :
  ts_ltb a b = true -> ts_ltb a c = false -> ts_ltb b c = false.
Proof.
  destruct a as [x |], b as [y |], c as [z |]; simpl; try congruence.
  intros H1 H2. apply Z.ltb_lt in H1. apply Z.ltb_ge in H2. apply Z.ltb_ge. lia.
Qed.

Section OrderByFacts.
  Context {A : Type} (col : A -> option Z).

Lemma insert_desc_perm (r : A) (l : list A) :
  Permutation (insert_desc col r l) (r :: l).
Proof.
  induction l as [| x xs IH]; simpl.
  - apply Permutation_refl.
  - destruct (ts_ltb (col x) (col r)).
    + apply Permutation_refl.
    + eapply perm_trans; [apply perm_skip, IH | apply perm_swap].
Qed.

Lemma order_by_desc_perm (l : list A) : Permutation (order_by_desc col l) l.
Proof.
  induction l as [| x xs IH]; simpl.
  - apply perm_nil.
  - eapply perm_trans; [apply insert_desc_perm | now apply perm_skip].
Qed.

Lemma insert_desc_sorted (r : A) (l : list A) :
  newest_first col l -> newest_first col (insert_desc col r l).
Proof.
  unfold newest_first. induction l as [| x xs IH]; simpl; intro Hs.
  - constructor; constructor.
  - apply StronglySorted_inv in Hs as [Hxs Hx].
    destruct (ts_ltb (col x) (col r)) eqn:Hlt.
    + constructor; [constructor; assumption |].
      constructor; [now apply ts_ltb_asym |].
      eapply Forall_impl; [| exact Hx].
      intros y Hy. exact (ts_ltb_above _ _ _ Hlt Hy).
    + constructor; [now apply IH |].
      rewrite Forall_forall in *. intros y Hy.
      apply (Permutation_in _ (insert_desc_perm r xs)) in Hy.
      destruct Hy as [<- | Hy]; [exact Hlt | now apply Hx].
Qed.

Lemma order_by_desc_sorted (l : list A) : newest_first col (order_by_desc col l).
Proof.
  induction l as [| x xs IH]; simpl.
  - constructor.
  - now apply insert_desc_sorted.
Qed.

End OrderByFacts.

(** ** Bulk retrieval: content, order, and what it leaves alone *)

Section RetrievalProperties.
  Variable sha256_hexdigest : string -> string.
  Local Abbreviation validate := (validate_password sha256_hexdigest).
  Local Abbreviation fetch_keys := (post_fetch_keys sha256_hexdigest).
  Local Abbreviation clear_keys := (post_clear_keys sha256_hexdigest).

Lemma post_fetch_keys_ok (data : Data) (w : World) :
  validate (password_of data) = inr true ->
  reachable w = true ->
  fetch_keys data w
  = (Sent 200 (PKeys (map key_view (select_secret_keys (db w)))),
     {| db := db w; reachable := true; connections := S (connections w) |}).
Proof.
  intros Hok Hr. unfold post_fetch_keys, try_except, bind, lift.
  unfold password_of in Hok. rewrite Hok. cbn [negb].
  unfold get_db_connection. now rewrite Hr.
Qed.

Lemma post_clear_keys_ok (data : Data) (w : World) :
  validate (password_of data) = inr true ->
  reachable w = true ->
  clear_keys data w
  = (Sent 200 (PDeleted (List.length (secret_keys (db w)))),
     {| db := with_secret_keys (db w) [] (secret_keys_id_seq (db w));
        reachable := true; connections := S (connections w) |}).
Proof.
  intros Hok Hr. unfold post_clear_keys, try_except, bind, lift.
  unfold password_of in Hok. rewrite Hok. cbn [negb].
  unfold get_db_connection. now rewrite Hr.
Qed.

(** With the right password on a reachable store, [/api/fetch-keys] answers
    with one entry per stored credential, none invented and none left out,
    newest first. *)
Theorem fetch_keys_lists_every_row (data : Data) (w : World) :
  validate (password_of data) = inr true ->
  reachable w = true ->
  exists rows,
    fst (fetch_keys data w) = Sent 200 (PKeys (map key_view rows))
    /\ Permutation rows (secret_keys (db w))
    /\ newest_first SecretKeys.created_at rows.
Proof.
  intros Hok Hr. rewrite (post_fetch_keys_ok data w Hok Hr).
  exists (select_secret_keys (db w)). split; [reflexivity |].
  split; [apply order_by_desc_perm | apply order_by_desc_sorted].
Qed.

(** [/api/fetch-keys] and [/api/check-key-status] never change the store,
    whatever the request and whatever the state of the connection. *)
Theorem queries_leave_store (data : Data) (w : World) :
  db (snd (fetch_keys data w)) = db w
  /\ db (snd (post_check_key_status data w)) = db w.
Proof.
  split.
  - unfold post_fetch_keys, try_except, bind, lift, get_db_connection, ret.
    destruct (validate_password sha256_hexdigest (get (d_password data) (PyStr "")))
      as [e | ok]; [reflexivity |].
    destruct ok; [| reflexivity]. cbn [negb].
    destruct (reachable w); reflexivity.
  - unfold post_check_key_status, try_except, bind, lift, get_db_connection, ret.
    destruct (py_lower (get (d_address data) (PyStr ""))) as [e | a]; [reflexivity |].
    destruct (a =? ""); [reflexivity |].
    destruct (reachable w); reflexivity.
Qed.

(** A password that is not text (a number, [null], a list) is not answered
    401: [encode] raises, both gated handlers answer 500 with the message of
    the [AttributeError], and the world is as it was. *)
Theorem gate_rejects_non_text_password (data : Data) (w : World) (e : exn) :
  validate (password_of data) = inl e ->
  fetch_keys data w = (Sent 500 (PError (slice_to 100 (str e))), w)
  /\ clear_keys data w = (Sent 500 (PError (slice_to 100 (str e))), w).
Proof.
  intro Hbad. unfold post_fetch_keys, post_clear_keys, try_except, bind, lift.
  unfold password_of in Hbad. rewrite Hbad. split; reflexivity.
Qed.

(** After a successful purge, a retrieval with the right password returns
    the empty list, and a second purge reports that it deleted nothing. *)
Theorem clear_then_fetch_empty (purge read : Data) (w : World) :
  validate (password_of purge) = inr true ->
  validate (password_of read) = inr true ->
  reachable w = true ->
  let w' := snd (clear_keys purge w) in
  fst (fetch_keys read w') = Sent 200 (PKeys [])
  /\ fst (clear_keys purge w') = Sent 200 (PDeleted 0).
Proof.
  intros Hp Hread Hr. cbv zeta.
  rewrite (post_clear_keys_ok purge w Hp Hr). cbn [snd].
  split.
  - match goal with
    | |- context [post_fetch_keys _ read ?w0] =>
        rewrite (post_fetch_keys_ok read w0 Hread eq_refl)
    end.
    reflexivity.
  - match goal with
    | |- context [post_clear_keys _ purge ?w0] =>
        rewrite (post_clear_keys_ok purge w0 Hp eq_refl)
    end.
    reflexivity.
Qed.


End RetrievalProperties.

(** ** What a request may do to the store *)

Lemma post_permanent_verified_db (ck : Clock) (data : Data) (w : World) :
  db (snd (post_permanent_verified ck data w)) = db w
  \/ exists address,
       address_of data = inr address
       /\ db (snd (post_permanent_verified ck data w))
          = with_permanent_verified (db w)
              (upsert_permanent_verified address
                 (datetime_now ck 0) (current_timestamp ck 0)
                 (permanent_verified (db w))).
Proof.
  unfold post_permanent_verified, try_except, bind, lift, raise,
    get_db_connection, commit, ret, set_db, address_of.
  destruct (py_lower (get (d_address data) (PyStr ""))) as [e | a] eqn:Ha;
    [now left |].
  destruct (invalid_address a); [now left |].
  destruct (reachable w); [| now left].
  destruct (eq_str (get (d_action data) (PyStr "add")) "add").
  - right. exists a. split; [reflexivity |]. cbn.
    now rewrite (py_lower_fixed _ _ Ha).
  - destruct (eq_str (get (d_action data) (PyStr "add")) "list"); now left.
Qed.

Lemma post_auto_claim_schedule_db (ck : Clock) (data : Data) (w : World) :
  db (snd (post_auto_claim_schedule ck data w)) = db w
  \/ exists excluded,
       db (snd (post_auto_claim_schedule ck data w))
       = with_auto_claim_schedule (db w)
           (upsert_auto_claim_schedule excluded (auto_claim_schedule (db w))).
Proof.
  unfold post_auto_claim_schedule, try_except, bind, lift, raise,
    get_db_connection, commit, ret, set_db.
  destruct (py_lower (get (d_address data) (PyStr ""))) as [e | a]; [now left |].
  destruct (py_lower (get (d_network data) (PyStr "celo"))) as [e | n]; [now left |].
  destruct (invalid_address a); [now left |].
  destruct (negb (supported_network n)); [now left |].
  destruct (reachable w); [| now left].
  right. eexists. reflexivity.
Qed.

Lemma post_save_keys_db (ck : Clock) (data : Data) (w : World) :
  db (snd (post_save_keys ck data w)) = db w
  \/ exists src dev stat keys rows seq saved,
       save_loop ck src dev stat 0 keys
         ((secret_keys (db w), secret_keys_id_seq (db w)), 0)
       = inr ((rows, seq), saved)
       /\ db (snd (post_save_keys ck data w)) = with_secret_keys (db w) rows seq.
Proof.
  unfold post_save_keys, try_except, bind, get_db_connection, commit, ret, set_db.
  destruct (negb (truthy (get (d_keys data) (PyList [])))
            || negb (is_list (get (d_keys data) (PyList [])))); [now left |].
  destruct (reachable w); [| now left].
  destruct (save_loop _ _ _ _ _ _ _) as [e | [[rows seq] saved]] eqn:Hl;
    [now left |].
  right. do 7 eexists. split; [exact Hl | reflexivity].
Qed.

Section ClearShape.
  Variable sha256_hexdigest : string -> string.

Lemma post_clear_keys_db (data : Data) (w : World) :
  db (snd (post_clear_keys sha256_hexdigest data w)) = db w
  \/ db (snd (post_clear_keys sha256_hexdigest data w))
     = with_secret_keys (db w) [] (secret_keys_id_seq (db w)).
Proof.
  unfold post_clear_keys, try_except, bind, lift, get_db_connection, commit,
    ret, set_db.
  destruct (validate_password sha256_hexdigest (get (d_password data) (PyStr "")))
    as [e | ok]; [now left |].
  destruct ok; [| now left]. cbn [negb].
  destruct (reachable w); [now right | now left].
Qed.

End ClearShape.

Lemma post_toggle_key_status_db (data : Data) (w : World) :
  db (snd (post_toggle_key_status data w)) = db w
  \/ exists address,
       address_of data = inr address
       /\ (db (snd (post_toggle_key_status data w))
           = with_disabled_keys (db w)
               (insert_disabled_key address "Disabled by user" (disabled_keys (db w)))
           \/ db (snd (post_toggle_key_status data w))
              = with_disabled_keys (db w)
                  (delete_disabled_key address (disabled_keys (db w)))).
Proof.
  unfold post_toggle_key_status, try_except, bind, lift, get_db_connection,
    commit, ret, set_db, address_of.
  destruct (py_lower (get (d_address data) (PyStr ""))) as [e | a]; [now left |].
  destruct (py_lower (get (d_action data) (PyStr ""))) as [e | act]; [now left |].
  destruct ((a =? "") || negb (str_in act ["enable"; "disable"])); [now left |].
  destruct (reachable w); [| now left].
  right. exists a. split; [reflexivity |].
  destruct (act =? "disable"); [now left | now right].
Qed.

(** ** When no connection can be obtained *)

(** Without a connection a schedule request that passes its checks is
    still answered 200 with the success message, although no row is
    written. *)
Theorem schedule_reports_success_offline (ck : Clock) (data : Data) (w : World)
    (address network : string) :
  address_of data = inr address ->
  invalid_address address = false ->
  network_of data = inr network ->
  supported_network network = true ->
  reachable w = false ->
  fst (post_auto_claim_schedule ck data w) = Sent 200 (PScheduled address network)
  /\ db (snd (post_auto_claim_schedule ck data w)) = db w.
Proof.
  intros Ha Hv Hn Hs Hr.
  unfold post_auto_claim_schedule, try_except, bind, lift.
  unfold address_of in Ha. unfold network_of in Hn.
  rewrite Ha, Hn, Hv, Hs. cbn [negb].
  unfold get_db_connection, ret. rewrite Hr. split; reflexivity.
Qed.

Section Offline.
  Variable sha256_hexdigest : string -> string.

(** Without a connection the other writing handlers and the status query
    answer 500 once the request has passed their checks, each with its own
    message, and the store is as it was. *)
Theorem offline_requests_fail (ck : Clock) (data : Data) (w : World)
    (address : string) :
  reachable w = false ->
  address_of data = inr address ->
  (invalid_address address = false ->
     fst (post_permanent_verified ck data w)
       = Sent 500 (PFailure "Database connection failed")
     /\ db (snd (post_permanent_verified ck data w)) = db w)
  /\ ((exists k ks, get (d_keys data) (PyList []) = PyList (k :: ks)) ->
        fst (post_save_keys ck data w)
          = Sent 500 (PError "Database connection failed")
        /\ db (snd (post_save_keys ck data w)) = db w)
  /\ (validate_password sha256_hexdigest (password_of data) = inr true ->
        fst (post_clear_keys sha256_hexdigest data w)
          = Sent 500 (PError "Database connection failed")
        /\ db (snd (post_clear_keys sha256_hexdigest data w)) = db w)
  /\ (address <> "" ->
        fst (post_check_key_status data w) = Sent 500 (PError "DB Error")
        /\ (forall action,
              toggle_action_of data = inr action ->
              str_in action ["enable"; "disable"] = true ->
              fst (post_toggle_key_status data w) = Sent 500 (PError "DB Error")
              /\ db (snd (post_toggle_key_status data w)) = db w)).
Proof.
  intros Hr Ha. unfold address_of in Ha.
  split; [| split; [| split]].
  - intro Hv.
    unfold post_permanent_verified, try_except, bind, lift, raise, get_db_connection.
    rewrite Ha, Hv, Hr. split; reflexivity.
  - intros (k & ks & Hk).
    unfold post_save_keys, try_except, bind, ret, get_db_connection.
    rewrite Hk. cbn [truthy is_list negb orb]. rewrite Hr. split; reflexivity.
  - intro Hok.
    unfold post_clear_keys, try_except, bind, lift, ret, get_db_connection.
    unfold password_of in Hok. rewrite Hok. cbn [negb]. rewrite Hr.
    split; reflexivity.
  - intro Hne. apply String.eqb_neq in Hne. split.
    + unfold post_check_key_status, try_except, bind, lift, ret, get_db_connection.
      rewrite Ha, Hne, Hr. reflexivity.
    + intros action Hact Hin. unfold toggle_action_of in Hact.
      unfold post_toggle_key_status, try_except, bind, lift, ret, get_db_connection.
      rewrite Ha, Hact, Hne, Hin. cbn [negb orb]. rewrite Hr. split; reflexivity.
Qed.

End Offline.

(** ** Verification registry: first mark, listing, other actions *)

Lemma upsert_permanent_first (addr : string) (verified stamp : Z)
    (t : list PermanentVerified.row) :
  existsb (fun x => PermanentVerified.address x =? addr) t = false ->
  upsert_permanent_verified addr verified stamp t
  = t ++ [{| PermanentVerified.address := addr;
             PermanentVerified.verified_at := Some verified;
             PermanentVerified.expires_at := None |}].
Proof.
  intro He. unfold upsert_permanent_verified. now rewrite He.
Qed.

Lemma upsert_permanent_others (addr other : string) (verified stamp : Z)
    (t : list PermanentVerified.row) :
  other <> addr ->
  filter (fun x => PermanentVerified.address x =? other)
    (upsert_permanent_verified addr verified stamp t)
  = filter (fun x => PermanentVerified.address x =? other) t.
Proof.
  intro Hne. unfold upsert_permanent_verified.
  destruct (existsb (fun x => PermanentVerified.address x =? addr) t).
  - induction t as [| x t IH]; simpl; [reflexivity |].
    rewrite (refreshed_key addr stamp x), IH.
    destruct (PermanentVerified.address x =? other) eqn:Ho; [| reflexivity].
    f_equal. unfold on_conflict_permanent_verified.
    apply String.eqb_eq in Ho.
    assert (Hx : (PermanentVerified.address x =? addr) = false)
      by (apply String.eqb_neq; congruence).
    now rewrite Hx.
  - rewrite filter_app. simpl.
    assert (Hf : (addr =? other) = false) by (apply String.eqb_neq; congruence).
    rewrite Hf. apply app_nil_r.
Qed.

(** The first mark of an address appends one row whose [verified_at] is the
    handler's own clock reading and whose [expires_at] is [NULL]; whether
    first or repeated, a mark leaves the rows of every other address and
    every other table as they were. *)
Theorem mark_permanent_first_and_frame (ck : Clock) (data : Data) (w : World)
    (address : string) :
  address_of data = inr address ->
  invalid_address address = false ->
  eq_str (get (d_action data) (PyStr "add")) "add" = true ->
  reachable w = true ->
  let t := permanent_verified (db w) in
  let st' := db (snd (post_permanent_verified ck data w)) in
  (existsb (fun x => PermanentVerified.address x =? address) t = false ->
     permanent_verified st'
     = t ++ [{| PermanentVerified.address := address;
                PermanentVerified.verified_at := Some (datetime_now ck 0);
                PermanentVerified.expires_at := None |}])
  /\ (forall other,
        other <> address ->
        filter (fun x => PermanentVerified.address x =? other) (permanent_verified st')
        = filter (fun x => PermanentVerified.address x =? other) t)
  /\ same_outside_permanent_verified (db w) st'.
Proof.
  intros Ha Hv Hadd Hr. cbv zeta.
  rewrite (post_permanent_verified_add_ok ck data w address Ha Hv Hadd Hr).
  cbn [snd db with_permanent_verified permanent_verified].
  split; [| split].
  - apply upsert_permanent_first.
  - intros other Hne. now apply upsert_permanent_others.
  - unfold same_outside_permanent_verified. cbn. auto.
Qed.

(** The [list] action answers with the registry as it stands, one pair per
    row with none left out and none invented, and leaves the store as it was.
    It is served only to a request that carries a valid address. *)
Theorem permanent_list_complete (ck : Clock) (data : Data) (w : World)
    (address : string) :
  address_of data = inr address ->
  invalid_address address = false ->
  get (d_action data) (PyStr "add") = PyStr "list" ->
  reachable w = true ->
  exists addresses,
    fst (post_permanent_verified ck data w) = Sent 200 (PVerifiedList addresses)
    /\ Permutation addresses
         (map (fun r => (PermanentVerified.address r, PermanentVerified.verified_at r))
            (permanent_verified (db w)))
    /\ db (snd (post_permanent_verified ck data w)) = db w.
Proof.
  intros Ha Hv Hact Hr.
  unfold post_permanent_verified, try_except, bind, lift, get_db_connection, ret.
  unfold address_of in Ha. rewrite Ha, Hv, Hr, Hact. cbn.
  eexists. split; [reflexivity |].
  split; [| reflexivity].
  unfold select_permanent_verified. apply Permutation_map. apply order_by_desc_perm.
Qed.

(** A request with a valid address whose [action] is neither [add] nor
    [list] opens a connection and then returns without sending any response;
    the store is as it was. *)
Theorem permanent_other_action_silent (ck : Clock) (data : Data) (w : World)
    (address : string) :
  address_of data = inr address ->
  invalid_address address = false ->
  eq_str (get (d_action data) (PyStr "add")) "add" = false ->
  eq_str (get (d_action data) (PyStr "add")) "list" = false ->
  reachable w = true ->
  fst (post_permanent_verified ck data w) = Silent
  /\ db (snd (post_permanent_verified ck data w)) = db w
  /\ connections (snd (post_permanent_verified ck data w)) = S (connections w).
Proof.
  intros Ha Hv Hadd Hlist Hr.
  unfold post_permanent_verified, try_except, bind, lift, get_db_connection, ret.
  unfold address_of in Ha. rewrite Ha, Hv, Hr, Hadd, Hlist. cbn. auto.
Qed.

(** ** Status toggle: rejection, frame, undo *)

(** The two status endpoints answer 400 before opening a connection: the
    query when the address is empty, the toggle when the address is empty or
    the lower-cased action is neither [enable] nor [disable]. *)
Theorem status_requests_rejected (data : Data) (w : World) (address action : string) :
  address_of data = inr address ->
  toggle_action_of data = inr action ->
  (address = "" ->
     post_check_key_status data w = (Sent 400 (PError "Address required"), w))
  /\ (address = "" \/ str_in action ["enable"; "disable"] = false ->
        post_toggle_key_status data w
        = (Sent 400 (PError "Address and action required"), w)).
Proof.
  intros Ha Hact. unfold address_of in Ha. unfold toggle_action_of in Hact. split.
  - intros ->. unfold post_check_key_status, try_except, bind, lift, ret.
    now rewrite Ha.
  - intro Hbad. unfold post_toggle_key_status, try_except, bind, lift, ret.
    rewrite Ha, Hact.
    assert (Hc : (address =? "") || negb (str_in action ["enable"; "disable"]) = true).
    { destruct Hbad as [-> | ->]; [reflexivity | apply orb_true_r]. }
    now rewrite Hc.
Qed.

Section OtherMarkers.
  Variables (addr other : string).
  Hypothesis apart : other <> addr.

Lemma insert_disabled_key_others (why : string) (t : list DisabledKeys.row) :
  filter (fun x => DisabledKeys.key_address x =? other) (insert_disabled_key addr why t)
  = filter (fun x => DisabledKeys.key_address x =? other) t.
Proof.
  unfold insert_disabled_key.
  destruct (existsb (fun x => DisabledKeys.key_address x =? addr) t); [reflexivity |].
  rewrite filter_app. simpl.
  assert (Hf : (addr =? other) = false) by (apply String.eqb_neq; congruence).
  rewrite Hf. apply app_nil_r.
Qed.

Lemma delete_disabled_key_others (t : list DisabledKeys.row) :
  filter (fun x => DisabledKeys.key_address x =? other) (delete_disabled_key addr t)
  = filter (fun x => DisabledKeys.key_address x =? other) t.
Proof.
  unfold delete_disabled_key. induction t as [| x t IH]; simpl; [reflexivity |].
  destruct (DisabledKeys.key_address x =? addr) eqn:Hx; simpl.
  - apply String.eqb_eq in Hx.
    assert (Hf : (DisabledKeys.key_address x =? other) = false)
      by (apply String.eqb_neq; congruence).
    now rewrite Hf.
  - destruct (DisabledKeys.key_address x =? other); now rewrite IH.
Qed.

End OtherMarkers.

(** Whatever a toggle request does, it does to the markers of its own
    address: the markers of every other address, and every other table, are
    as they were. *)
Theorem toggle_touches_one_address (data : Data) (w : World) (address : string) :
  address_of data = inr address ->
  let st' := db (snd (post_toggle_key_status data w)) in
  (forall other,
     other <> address ->
     filter (fun x => DisabledKeys.key_address x =? other) (disabled_keys st')
     = filter (fun x => DisabledKeys.key_address x =? other) (disabled_keys (db w)))
  /\ same_outside_disabled_keys (db w) st'.
Proof.
  intro Ha. cbv zeta.
  destruct (post_toggle_key_status_db data w) as [-> | (a & Ha' & [-> | ->])].
  - split; [reflexivity | unfold same_outside_disabled_keys; auto].
  - assert (a = address) by congruence. subst a.
    split; [| unfold same_outside_disabled_keys; cbn; auto].
    intros other Hne. cbn. now apply insert_disabled_key_others.
  - assert (a = address) by congruence. subst a.
    split; [| unfold same_outside_disabled_keys; cbn; auto].
    intros other Hne. cbn. now apply delete_disabled_key_others.
Qed.

(** Disabling an address that is not disabled and then enabling it again
    gives back the store one started from. *)
Theorem disable_then_enable_restores (dis en : Data) (w : World) (address : string) :
  address_of dis = inr address ->
  address_of en = inr address ->
  address <> "" ->
  toggle_action_of dis = inr "disable" ->
  toggle_action_of en = inr "enable" ->
  reachable w = true ->
  existsb (fun x => DisabledKeys.key_address x =? address) (disabled_keys (db w)) = false ->
  db (snd (post_toggle_key_status en (snd (post_toggle_key_status dis w)))) = db w.
Proof.
  intros Hd He Hne Hdis Hen Hr Hfree.
  rewrite (post_toggle_disable_ok dis w address Hd Hne Hdis Hr). cbn [snd].
  match goal with
  | |- context [post_toggle_key_status en ?w0] =>
      rewrite (post_toggle_enable_ok en w0 address He Hne Hen eq_refl)
  end.
  cbn [snd db with_disabled_keys disabled_keys].
  unfold insert_disabled_key. rewrite Hfree.
  unfold delete_disabled_key. rewrite filter_app. simpl.
  rewrite String.eqb_refl. simpl. rewrite app_nil_r.
  fold (delete_disabled_key address (disabled_keys (db w))).
  rewrite (delete_disabled_key_idle address _ Hfree).
  destruct (db w); reflexivity.
Qed.

(** ** Letter case *)

(** Addresses, networks and toggle actions are folded to lower case before
    anything else: a request whose fields are ASCII text, spelled in any mix
    of upper and lower case, gets the answer, and has the effect, of the same
    request in lower case. *)
Theorem requests_fold_case (ck : Clock) (w : World) (address network action : string) :
  ascii_text address = true ->
  ascii_text network = true ->
  ascii_text action = true ->
  post_check_key_status (address_request address) w
    = post_check_key_status (address_request (lower address)) w
  /\ post_toggle_key_status (toggle_request address action) w
     = post_toggle_key_status (toggle_request (lower address) (lower action)) w
  /\ post_permanent_verified ck (address_request address) w
     = post_permanent_verified ck (address_request (lower address)) w
  /\ post_auto_claim_schedule ck (schedule_request address network) w
     = post_auto_claim_schedule ck (schedule_request (lower address) (lower network)) w.
Proof.
  intros _ _ _.
  unfold post_check_key_status, post_toggle_key_status, post_permanent_verified,
    post_auto_claim_schedule, address_request, toggle_request, schedule_request.
  cbn [d_address d_action d_network get py_lower].
  rewrite !lower_idempotent. repeat split; reflexivity.
Qed.

(** ** The maintenance flag *)

Lemma on_conflict_app_setting_named (k v k' : string) (x : AppSettings.row) :
  setting_named k' (on_conflict_app_setting k v x) = setting_named k' x.
Proof.
  unfold on_conflict_app_setting. destruct (setting_named k x); reflexivity.
Qed.

Lemma find_updated_setting (k v : string) (t : list AppSettings.row) :
  existsb (setting_named k) t = true ->
  exists x,
    find (setting_named k) (map (on_conflict_app_setting k v) t) = Some x
    /\ AppSettings.value x = Some v.
Proof.
  induction t as [| y t IH]; simpl; intro He; [discriminate He |].
  rewrite on_conflict_app_setting_named.
  destruct (setting_named k y) eqn:Hy.
  - eexists. split; [reflexivity |].
    unfold on_conflict_app_setting. now rewrite Hy.
  - simpl in He. now apply IH.
Qed.

Lemma find_appended_setting (k : string) (r : AppSettings.row)
    (t : list AppSettings.row) :
  existsb (setting_named k) t = false ->
  setting_named k r = true ->
  find (setting_named k) (t ++ [r]) = Some r.
Proof.
  induction t as [| y t IH]; simpl; intros He Hr.
  - now rewrite Hr.
  - apply orb_false_iff in He as [Hy He]. rewrite Hy. now apply IH.
Qed.

(** How the flag is read: [false] when no row has the key; from the first
    row with the key otherwise, true exactly when its value is [true] in
    any mix of cases; and a 500 when that value is [NULL]. *)
Theorem get_flag_reading (w : World) :
  reachable w = true ->
  fst (post_get_maintenance_mode w)
  = match select_setting "xdc_maintenance_mode" (db w) with
    | None => (200%Z, MMode false)
    | Some row =>
        match AppSettings.value row with
        | Some s => (200%Z, MMode (lower s =? "true"))
        | None => (500%Z, MError "'NoneType' object has no attribute 'lower'")
        end
    end
  /\ db (snd (post_get_maintenance_mode w)) = db w.
Proof.
  intro Hr.
  unfold post_get_maintenance_mode, attempt, bind, lift, ret, get_db_connection.
  rewrite Hr.
  destruct (select_setting "xdc_maintenance_mode" (db w)) as [row |];
    [| split; reflexivity].
  destruct (AppSettings.value row) as [s |]; split; reflexivity.
Qed.

Section FlagProperties.
  Variable sha256_hexdigest : string -> string.
  Local Abbreviation validate := (validate_password sha256_hexdigest).
  Local Abbreviation set_flag := (post_set_maintenance_mode sha256_hexdigest).

Lemma post_set_maintenance_mode_ok (eng : Engine) (data : MaintenanceData)
    (w : World) (t : list AppSettings.row) :
  validate (get (m_password data) (PyStr "")) = inr true ->
  reachable w = true ->
  upsert_app_setting eng "xdc_maintenance_mode"
    (py_str (get (m_maintenance_mode data) (ScBool false)))
    (app_settings (db w)) = Some t ->
  set_flag eng data w
  = ((200%Z, MSaved (get (m_maintenance_mode data) (ScBool false))),
     {| db := with_app_settings (db w) t; reachable := true;
        connections := S (connections w) |}).
Proof.
  intros Hok Hr Hup.
  unfold post_set_maintenance_mode, attempt, bind, lift, ret, commit, set_db,
    get_db_connection.
  rewrite Hok. cbn [negb]. rewrite Hr, Hup. reflexivity.
Qed.


(** Writing the flag and reading it back: with the right password on a
    reachable store, provided the key has a row already or the id the engine
    offers is unused, a read after the write answers [true] exactly when the
    text of the written value is [true] in any mix of cases.  So a JSON
    boolean reads back as itself, while [1] and [null] read back as false. *)
Theorem set_then_get_flag (eng : Engine) (data : MaintenanceData) (w : World) :
  validate (get (m_password data) (PyStr "")) = inr true ->
  reachable w = true ->
  existsb (setting_named "xdc_maintenance_mode") (app_settings (db w)) = true
  \/ existsb (fun x => (AppSettings.id x =? app_settings_nextval eng)%Z)
       (app_settings (db w)) = false ->
  let mode := get (m_maintenance_mode data) (ScBool false) in
  fst (set_flag eng data w) = (200%Z, MSaved mode)
  /\ fst (post_get_maintenance_mode (snd (set_flag eng data w)))
     = (200%Z, MMode (reads_as mode))
  /\ (forall b, reads_as (ScBool b) = b)
  /\ (forall n, reads_as (ScInt n) = false)
  /\ reads_as ScNone = false.
Proof.
  intros Hok Hr Hroom. cbv zeta.
  set (mode := get (m_maintenance_mode data) (ScBool false)).
  assert (Hup : exists t x,
             upsert_app_setting eng "xdc_maintenance_mode" (py_str mode)
               (app_settings (db w)) = Some t
             /\ find (setting_named "xdc_maintenance_mode") t = Some x
             /\ AppSettings.value x = Some (py_str mode)).
  { unfold upsert_app_setting.
    destruct (existsb (setting_named "xdc_maintenance_mode") (app_settings (db w)))
      eqn:He.
    - destruct (find_updated_setting "xdc_maintenance_mode" (py_str mode) _ He)
        as (x & Hx & Hv).
      eexists; exists x. split; [reflexivity | split; assumption].
    - destruct Hroom as [Hroom | Hroom]; [discriminate Hroom |].
      rewrite Hroom. eexists; eexists. split; [reflexivity |]. split.
      + apply find_appended_setting; [exact He | reflexivity].
      + reflexivity. }
  destruct Hup as (t & x & Hup & Hfind & Hval).
  rewrite (post_set_maintenance_mode_ok eng data w t Hok Hr Hup).
  cbn [fst snd].
  split; [reflexivity |].
  split.
  - unfold post_get_maintenance_mode, attempt, bind, lift, ret, get_db_connection,
      select_setting.
    cbn [reachable db with_app_settings app_settings].
    rewrite Hfind, Hval. reflexivity.
  - split; [intros []; reflexivity |].
    split; [| reflexivity].
    intro n. unfold reads_as, py_str.
    destruct n as [| p | p]; [reflexivity | |].
    + cbn [Z.to_int NilZero.string_of_int].
      destruct (Pos.to_uint p) eqn:Hp; try reflexivity.
    + reflexivity.
Qed.

End FlagProperties.

Section FlagFrame.
  Variable sha256_hexdigest : string -> string.


End FlagFrame.

(** ** Faucet claims *)

(** A claim whose lower-cased address is empty or lacks the prefix is
    answered 400, and no faucet is contacted. *)
Theorem claim_celo_rejects_before_asking (stakely allthatnode : HttpOutcome)
    (data : Data) (address : string) :
  address_of data = inr address ->
  invalid_address address = true ->
  post_claim_celo stakely allthatnode data
  = (ClaimRejected 400 "Invalid address", []).
Proof.
  intros Ha Hv. unfold post_claim_celo. unfold address_of in Ha.
  now rewrite Ha, Hv.
Qed.

(** For a valid address both faucets are asked, Stakely first, each with the
    lower-cased address, whatever the first one answers.  The claim succeeds
    exactly when a faucet answers 200 with a JSON body; Stakely is named when
    it did, AllThatNode only when Stakely did not; otherwise the answer lists
    both failed attempts. *)
Theorem claim_celo_outcome (stakely allthatnode : HttpOutcome)
    (data : Data) (address : string) :
  address_of data = inr address ->
  invalid_address address = false ->
  snd (post_claim_celo stakely allthatnode data)
  = [{| url := "https://stakely.io/api/v1/faucet/claim";
        body := [("address", address); ("blockchain", "celo")] |};
     {| url := "https://www.allthatnode.com/api/v1/faucet/celo/request";
        body := [("address", address)] |}]
  /\ (granted stakely = true ->
        fst (post_claim_celo stakely allthatnode data) = ClaimSent address "Stakely")
  /\ (granted stakely = false -> granted allthatnode = true ->
        fst (post_claim_celo stakely allthatnode data) = ClaimSent address "AllThatNode")
  /\ (granted stakely = false -> granted allthatnode = false ->
        exists first second,
          fst (post_claim_celo stakely allthatnode data)
            = ClaimUnavailable address [first; second]
          /\ Faucet.source first = "Stakely" /\ Faucet.success first = false
          /\ Faucet.source second = "AllThatNode" /\ Faucet.success second = false).
Proof.
  intros Ha Hv. unfold post_claim_celo. unfold address_of in Ha.
  rewrite Ha, Hv. cbn [fst snd]. split; [reflexivity |].
  assert (Hentry : forall name unavailable r,
             Faucet.success (faucet_entry name unavailable r) = granted r
             /\ Faucet.source (faucet_entry name unavailable r) = name).
  { intros name unavailable [code [d |] |]; simpl;
      try (destruct (code =? 200)%Z); auto. }
  destruct (Hentry "Stakely" "Faucet rate limited or unavailable" stakely)
    as [Hs1 Hn1].
  destruct (Hentry "AllThatNode" "Faucet unavailable" allthatnode) as [Hs2 Hn2].
  cbn [filter]. rewrite Hs1, Hs2.
  split; [| split].
  - intros ->. now rewrite Hn1.
  - intros -> ->. now rewrite Hn2.
  - intros Hg1 Hg2. rewrite Hg1, Hg2. do 2 eexists.
    split; [reflexivity |]. rewrite Hs1, Hs2. auto.
Qed.

(** ** Schema creation *)

(** With [DATABASE_URL] set and the database reached, [run] leaves every
    table in existence, keeps the contents of each table that existed, and
    changes nothing when run again; a run on a database without tables gives
    the empty store.  Without the variable, or with an empty one, no database
    is reached. *)
Theorem run_creates_missing_tables (u : string) (d : Database) :
  u <> "" ->
  (exists d',
     run (Some u) (inr d) = (Some d', InitOK)
     /\ (exists st, store_of d' = Some st)
     /\ (forall st, store_of d = Some st -> store_of d' = Some st)
     /\ (forall rows, tab_secret_keys d = Some rows -> tab_secret_keys d' = Some rows)
     /\ (forall rows, tab_app_settings d = Some rows -> tab_app_settings d' = Some rows)
     /\ (forall rows, tab_permanent_verified d = Some rows ->
           tab_permanent_verified d' = Some rows)
     /\ (forall rows, tab_auto_claim_schedule d = Some rows ->
           tab_auto_claim_schedule d' = Some rows)
     /\ (forall rows, tab_disabled_keys d = Some rows -> tab_disabled_keys d' = Some rows)
     /\ run (Some u) (inr d') = (Some d', InitOK))
  /\ (exists d0,
        run (Some u) (inr blank_database) = (Some d0, InitOK)
        /\ store_of d0 = Some empty_store)
  /\ run None (inr d) = (None, SkipInit)
  /\ run (Some "") (inr d) = (None, SkipInit).
Proof.
  intro Hu. apply String.eqb_neq in Hu.
  unfold run. rewrite Hu.
  split; [| split; [| split; reflexivity]].
  - eexists. split; [reflexivity |].
    destruct d as [[[sk seq] |] [se |] [pv |] [sc |] [dk |]];
      cbn; repeat split;
      try (eexists; reflexivity); try (intros ? H; exact H);
      try (intros ? H; discriminate H).
  - eexists. split; reflexivity.
Qed.

(** ** Posting to X *)

(** [/api/x-post] answers every request with status 200, failures
    included. *)
Theorem x_post_always_200 (loads : string -> option pyval) (tweepy : Tweepy)
    (data : XPostData) :
  fst (fst (post_x_post loads tweepy data)) = 200%Z.
Proof.
  unfold post_x_post.
  destruct (negb (truthy (get (x_message data) (PyStr "")))
            || negb (truthy (get (x_apiKey data) (PyStr "")))); [reflexivity |].
  destruct (py_len (get (x_message data) (PyStr ""))); [reflexivity |].
  destruct (json_loads loads (get (x_apiKey data) (PyStr ""))) as [te | [creds |]];
    [reflexivity | | reflexivity].
  destruct creds; try reflexivity.
  destruct (negb (forallb truthy _)); [reflexivity |].
  destruct tweepy; reflexivity.
Qed.

(** The library is handed credentials only when the message is non-empty
    and [apiKey] is text that parses to an object whose four credentials are
    all non-empty, and it is handed the message as it came; the answer
    carries a tweet id only when the library posted, and then it is the id
    the library returned. *)
Theorem x_post_needs_complete_credentials (loads : string -> option pyval)
    (tweepy : Tweepy) (data : XPostData) :
  (forall call,
     snd (post_x_post loads tweepy data) = Some call ->
     complete call
     /\ x_status call = get (x_message data) (PyStr "")
     /\ truthy (x_status call) = true
     /\ exists text creds,
          get (x_apiKey data) (PyStr "") = PyStr text
          /\ loads text = Some (PyDict creds)
          /\ api_key_str call = dict_get creds "api_key" (PyStr ""))
  /\ (forall tweet_id,
        snd (fst (post_x_post loads tweepy data)) = XPosted tweet_id ->
        tweepy = Posts tweet_id
        /\ snd (post_x_post loads tweepy data) <> None).
Proof.
  unfold post_x_post.
  destruct (truthy (get (x_message data) (PyStr ""))) eqn:Hm; cbn [negb orb];
    [| split; [intros ? H | intros ? H]; discriminate H].
  destruct (truthy (get (x_apiKey data) (PyStr ""))) eqn:Hk; cbn [negb];
    [| split; [intros ? H | intros ? H]; discriminate H].
  destruct (py_len (get (x_message data) (PyStr "")));
    [split; [intros ? H | intros ? H]; discriminate H |].
  destruct (get (x_apiKey data) (PyStr "")) as [| b | z | text | l | l] eqn:Hv;
    cbn [json_loads];
    try (split; [intros ? H | intros ? H]; discriminate H).
  destruct (loads text) as [creds |] eqn:Hl;
    [| split; [intros ? H | intros ? H]; discriminate H].
  destruct creds as [| b | z | s | l | creds];
    try (split; [intros ? H | intros ? H]; discriminate H).
  destruct (forallb truthy _) eqn:Hall; cbn [negb];
    [| split; [intros ? H | intros ? H]; discriminate H].
  assert (Hc : complete
            {| api_key_str := dict_get creds "api_key" (PyStr "");
               api_secret_str := dict_get creds "api_secret" (PyStr "");
               access_token_str := dict_get creds "access_token" (PyStr "");
               access_token_secret_str :=
                 dict_get creds "access_token_secret" (PyStr "");
               x_status := get (x_message data) (PyStr "") |}).
  { unfold complete. cbn [forallb api_key_str api_secret_str access_token_str
                            access_token_secret_str] in *.
    repeat (apply andb_true_iff in Hall as [? Hall]). auto. }
  destruct tweepy as [| tweet_id | te]; cbn [fst snd].
  - split; [intros ? H | intros ? H]; discriminate H.
  - split.
    + intros call H. injection H as <-. cbn [x_status api_key_str].
      split; [exact Hc |]. split; [reflexivity |]. split; [exact Hm |].
      exists text, creds. auto.
    + intros id H. injection H as <-. split; [reflexivity | discriminate].
  - split.
    + intros call H. injection H as <-. cbn [x_status api_key_str].
      split; [exact Hc |]. split; [reflexivity |]. split; [exact Hm |].
      exists text, creds. auto.
    + intros id H. discriminate H.
Qed.

(** * The further properties at concrete requests *)

(** An empty list of keys. *)
Lemma save_keys_invalid_format_example :
  post_save_keys (wall_clock 0) (keys_request []) (online busy_store)
  = (Sent 400 (PError "Invalid keys format"), online busy_store).
Proof.
  apply (save_keys_invalid_format (wall_clock 0) (keys_request []) (online busy_store)).
  intros k ks H. discriminate H.
Defined.


(** A batch with a number between two secrets. *)
Lemma save_keys_all_or_nothing_example :
  let data := keys_request [PyStr "k9"; PyInt 7; PyStr "k8"] in
  fst (post_save_keys (wall_clock 50) data (online busy_store))
    = Sent 500 (PError "object of type 'int' has no len()")
  /\ db (snd (post_save_keys (wall_clock 50) data (online busy_store))) = busy_store.
Proof.
  exact (save_keys_all_or_nothing (wall_clock 50)
           (keys_request [PyStr "k9"; PyInt 7; PyStr "k8"]) (online busy_store)
           [PyStr "k9"] [PyStr "k8"] (PyInt 7)
           (TypeError "object of type 'int' has no len()")
           eq_refl eq_refl eq_refl eq_refl eq_refl).
Defined.

(** Retrieval from the store with two credentials. *)
Lemma fetch_keys_lists_every_row_example :
  exists rows,
    fst (post_fetch_keys plain_digest (password_request "963050") (online busy_store))
      = Sent 200 (PKeys (map key_view rows))
    /\ Permutation rows (secret_keys busy_store)
    /\ newest_first SecretKeys.created_at rows.
Proof.
  exact (fetch_keys_lists_every_row plain_digest (password_request "963050")
           (online busy_store) eq_refl eq_refl).
Defined.

(** The password sent as a number. *)
Lemma gate_rejects_non_text_password_example :
  post_fetch_keys plain_digest (numeric_password_request 963050) (online busy_store)
    = (Sent 500 (PError "'int' object has no attribute 'encode'"), online busy_store)
  /\ post_clear_keys plain_digest (numeric_password_request 963050) (online busy_store)
     = (Sent 500 (PError "'int' object has no attribute 'encode'"), online busy_store).
Proof.
  exact (gate_rejects_non_text_password plain_digest
           (numeric_password_request 963050) (online busy_store)
           (no_attribute (PyInt 963050) "encode") eq_refl).
Defined.

(** A purge followed by a retrieval and by a second purge. *)
Lemma clear_then_fetch_empty_example :
  let w' := snd (post_clear_keys plain_digest (password_request "963050")
                   (online busy_store)) in
  fst (post_fetch_keys plain_digest (password_request "963050") w') = Sent 200 (PKeys [])
  /\ fst (post_clear_keys plain_digest (password_request "963050") w')
     = Sent 200 (PDeleted 0).
Proof.
  exact (clear_then_fetch_empty plain_digest (password_request "963050")
           (password_request "963050") (online busy_store) eq_refl eq_refl eq_refl).
Defined.


(** A schedule request while the store cannot be reached. *)
Lemma schedule_reports_success_offline_example :
  fst (post_auto_claim_schedule (wall_clock 0) (schedule_request "0xabc" "celo")
         (offline busy_store))
    = Sent 200 (PScheduled "0xabc" "celo")
  /\ db (snd (post_auto_claim_schedule (wall_clock 0) (schedule_request "0xabc" "celo")
                (offline busy_store)))
     = busy_store.
Proof.
  exact (schedule_reports_success_offline (wall_clock 0)
           (schedule_request "0xabc" "celo") (offline busy_store) "0xabc" "celo"
           eq_refl eq_refl eq_refl eq_refl eq_refl).
Defined.

(** A mark and a status query while the store cannot be reached. *)
Lemma offline_requests_fail_example :
  (fst (post_permanent_verified (wall_clock 0) (address_request "0xabc")
          (offline busy_store))
     = Sent 500 (PFailure "Database connection failed")
   /\ db (snd (post_permanent_verified (wall_clock 0) (address_request "0xabc")
                 (offline busy_store)))
      = busy_store)
  /\ fst (post_check_key_status (address_request "0xabc") (offline busy_store))
     = Sent 500 (PError "DB Error").
Proof.
  pose proof (offline_requests_fail plain_digest (wall_clock 0)
                (address_request "0xabc") (offline busy_store) "0xabc"
                eq_refl eq_refl) as (Hmark & _ & _ & Hstatus).
  split.
  - exact (Hmark eq_refl).
  - apply Hstatus. discriminate.
Defined.

(** The first mark of [0xabc] in a registry that holds another address. *)
Lemma mark_permanent_first_and_frame_example :
  let ck := wall_clock 40 in
  let data := address_request "0xABC" in
  let w := online busy_store in
  let t := permanent_verified (db w) in
  let st' := db (snd (post_permanent_verified ck data w)) in
  (existsb (fun x => PermanentVerified.address x =? "0xabc") t = false ->
     permanent_verified st'
     = t ++ [{| PermanentVerified.address := "0xabc";
                PermanentVerified.verified_at := Some (datetime_now ck 0);
                PermanentVerified.expires_at := None |}])
  /\ (forall other,
        other <> "0xabc" ->
        filter (fun x => PermanentVerified.address x =? other) (permanent_verified st')
        = filter (fun x => PermanentVerified.address x =? other) t)
  /\ same_outside_permanent_verified (db w) st'.
Proof.
  exact (mark_permanent_first_and_frame (wall_clock 40) (address_request "0xABC")
           (online busy_store) "0xabc" eq_refl eq_refl eq_refl eq_refl).
Defined.

(** The registry listed after a first mark of a second address. *)
Lemma permanent_list_complete_example :
  let w := snd (post_permanent_verified (wall_clock 40) (address_request "0xabc")
                  (online busy_store)) in
  exists addresses,
    fst (post_permanent_verified (wall_clock 50) (action_request "0xabc" "list") w)
      = Sent 200 (PVerifiedList addresses)
    /\ Permutation addresses
         (map (fun r => (PermanentVerified.address r, PermanentVerified.verified_at r))
            (permanent_verified (db w)))
    /\ db (snd (post_permanent_verified (wall_clock 50)
                  (action_request "0xabc" "list") w))
       = db w.
Proof.
  exact (permanent_list_complete (wall_clock 50) (action_request "0xabc" "list")
           (snd (post_permanent_verified (wall_clock 40) (address_request "0xabc")
                   (online busy_store)))
           "0xabc" eq_refl eq_refl eq_refl eq_refl).
Defined.

(** An action the registry does not know. *)
Lemma permanent_other_action_silent_example :
  let r := post_permanent_verified (wall_clock 0) (action_request "0xabc" "remove")
             (online busy_store) in
  fst r = Silent /\ db (snd r) = busy_store /\ connections (snd r) = 1.
Proof.
  exact (permanent_other_action_silent (wall_clock 0)
           (action_request "0xabc" "remove") (online busy_store) "0xabc"
           eq_refl eq_refl eq_refl eq_refl eq_refl).
Defined.

(** A toggle with an action that is neither of the two. *)
Lemma status_requests_rejected_example :
  post_toggle_key_status (toggle_request "0xabc" "delete") (online busy_store)
  = (Sent 400 (PError "Address and action required"), online busy_store).
Proof.
  apply (status_requests_rejected (toggle_request "0xabc" "delete")
           (online busy_store) "0xabc" "delete" eq_refl eq_refl).
  right. reflexivity.
Defined.

(** Disabling [0xabc] next to the marker of [0xdef]. *)
Lemma toggle_touches_one_address_example :
  let st' := db (snd (post_toggle_key_status (toggle_request "0xabc" "disable")
                        (online busy_store))) in
  (forall other,
     other <> "0xabc" ->
     filter (fun x => DisabledKeys.key_address x =? other) (disabled_keys st')
     = filter (fun x => DisabledKeys.key_address x =? other) (disabled_keys busy_store))
  /\ same_outside_disabled_keys busy_store st'.
Proof.
  exact (toggle_touches_one_address (toggle_request "0xabc" "disable")
           (online busy_store) "0xabc" eq_refl).
Defined.

(** [0xabc] disabled and enabled again. *)
Lemma disable_then_enable_restores_example :
  db (snd (post_toggle_key_status (toggle_request "0xabc" "enable")
             (snd (post_toggle_key_status (toggle_request "0xABC" "disable")
                     (online busy_store)))))
  = busy_store.
Proof.
  apply (disable_then_enable_restores (toggle_request "0xABC" "disable")
           (toggle_request "0xabc" "enable") (online busy_store) "0xabc");
    try reflexivity.
  discriminate.
Defined.

(** The flag read from a store where it is off. *)
Lemma get_flag_reading_example :
  fst (post_get_maintenance_mode (online busy_store)) = (200%Z, MMode false)
  /\ db (snd (post_get_maintenance_mode (online busy_store))) = busy_store.
Proof.
  exact (get_flag_reading (online busy_store) eq_refl).
Defined.

(** The flag switched on and read back. *)
Lemma set_then_get_flag_example :
  let r := post_set_maintenance_mode plain_digest fresh_engine
             (flag_request "963050" (ScBool true)) (online busy_store) in
  fst r = (200%Z, MSaved (ScBool true))
  /\ fst (post_get_maintenance_mode (snd r)) = (200%Z, MMode true).
Proof.
  pose proof (set_then_get_flag plain_digest fresh_engine
                (flag_request "963050" (ScBool true)) (online busy_store)
                eq_refl eq_refl (or_introl eq_refl)) as (Hset & Hget & _).
  split; [exact Hset | exact Hget].
Defined.


(** An address without prefix. *)
Lemma claim_celo_rejects_before_asking_example :
  post_claim_celo (Responded 200 (Some PyNone)) Raised (address_request "ABC")
  = (ClaimRejected 400 "Invalid address", []).
Proof.
  exact (claim_celo_rejects_before_asking (Responded 200 (Some PyNone)) Raised
           (address_request "ABC") "abc" eq_refl eq_refl).
Defined.

(** Stakely rate-limited, AllThatNode granting. *)
Lemma claim_celo_outcome_example :
  fst (post_claim_celo (Responded 429 None) (Responded 200 (Some (PyDict [])))
         (address_request "0xABC"))
  = ClaimSent "0xabc" "AllThatNode".
Proof.
  pose proof (claim_celo_outcome (Responded 429 None)
                (Responded 200 (Some (PyDict []))) (address_request "0xABC")
                "0xabc" eq_refl eq_refl) as (_ & _ & Hsecond & _).
  exact (Hsecond eq_refl eq_refl).
Defined.

(** A run on a database where two tables exist. *)
Lemma run_creates_missing_tables_example :
  exists d',
    run (Some "postgresql://db") (inr half_database) = (Some d', InitOK)
    /\ (exists st, store_of d' = Some st)
    /\ tab_secret_keys d' = Some (secret_keys busy_store, 3%Z)
    /\ run (Some "postgresql://db") (inr d') = (Some d', InitOK).
Proof.
  destruct (run_creates_missing_tables "postgresql://db" half_database)
    as ((d' & Hrun & Hst & _ & Hsk & _ & _ & _ & _ & Hagain) & _).
  - discriminate.
  - exists d'. split; [exact Hrun |]. split; [exact Hst |].
    split; [apply Hsk; reflexivity | exact Hagain].
Defined.

(** Complete credentials handed over, and the tweet posted. *)
Lemma x_post_needs_complete_credentials_example :
  snd (fst (post_x_post one_text_loads (Posts "42") (x_post_request "hello" "creds")))
    = XPosted "42"
  /\ Posts "42" = Posts "42"
  /\ snd (post_x_post one_text_loads (Posts "42") (x_post_request "hello" "creds"))
     <> None.
Proof.
  split; [reflexivity |].
  exact (proj2 (x_post_needs_complete_credentials one_text_loads (Posts "42")
                  (x_post_request "hello" "creds")) "42" eq_refl).
Defined.

(** A request spelled in capitals. *)
Lemma requests_fold_case_example :
  post_check_key_status (address_request "0XABC") (online busy_store)
    = post_check_key_status (address_request "0xabc") (online busy_store)
  /\ post_toggle_key_status (toggle_request "0XABC" "Disable") (online busy_store)
     = post_toggle_key_status (toggle_request "0xabc" "disable") (online busy_store)
  /\ post_permanent_verified (wall_clock 0) (address_request "0XABC") (online busy_store)
     = post_permanent_verified (wall_clock 0) (address_request "0xabc") (online busy_store)
  /\ post_auto_claim_schedule (wall_clock 0) (schedule_request "0XABC" "CELO")
       (online busy_store)
     = post_auto_claim_schedule (wall_clock 0) (schedule_request "0xabc" "celo")
         (online busy_store).
Proof.
  exact (requests_fold_case (wall_clock 0) (online busy_store) "0XABC" "CELO" "Disable"
           eq_refl eq_refl eq_refl).
Defined.

(** * Retrieval when the store cannot be reached *)


(** The model of [/api/fetch-keys] on a world and the one on an environment
    give the same answer when the connection, if there is one, leads to the
    tables of the world. *)
Lemma fetch_keys_in_agrees (sha256_hexdigest : string -> string)
    (env : Environment) (data : Data) (w : World) :
  (reachable w = false -> get_db_connection_in env = None) ->
  (reachable w = true ->
     exists d, get_db_connection_in env = Some d /\ store_of d = Some (db w)) ->
  fetch_keys_in sha256_hexdigest env data
  = fst (post_fetch_keys sha256_hexdigest data w).
Proof.
  intros Hoff Hon.
  unfold fetch_keys_in, post_fetch_keys, try_except, bind, lift, ret,
    get_db_connection.
  destruct (validate_password sha256_hexdigest (get (d_password data) (PyStr "")))
    as [e | ok]; [reflexivity |].
  destruct ok; [| reflexivity]. cbn [negb].
  destruct (reachable w).
  - destruct (Hon eq_refl) as (d & -> & Hst).
    unfold store_of in Hst.
    destruct (tab_secret_keys d) as [[rows seq] |]; [| discriminate Hst].
    destruct (tab_app_settings d); [| discriminate Hst].
    destruct (tab_permanent_verified d); [| discriminate Hst].
    destruct (tab_auto_claim_schedule d); [| discriminate Hst].
    destruct (tab_disabled_keys d); [| discriminate Hst].
    injection Hst as <-. reflexivity.
  - now rewrite (Hoff eq_refl).
Qed.


(** With the right password, a connection behind which the table is missing
    is answered 500 with the text of the engine's error. *)
Lemma fetch_keys_in_missing_table (sha256_hexdigest : string -> string)
    (env : Environment) (data : Data) (d : Database) :
  validate_password sha256_hexdigest (password_of data) = inr true ->
  get_db_connection_in env = Some d ->
  tab_secret_keys d = None ->
  fetch_keys_in sha256_hexdigest env data
  = Sent 500 (PError (slice_to 100 (missing_table env))).
Proof.
  intros Hok Hd Ht. unfold password_of in Hok. unfold fetch_keys_in.
  now rewrite Hok, Hd, Ht.
Qed.



(** * The gate and the schedule as first stated *)


(** C6 (as stated, refuted).  While no connection can be obtained two
    schedule calls are both answered with success and leave no row at all. *)
Lemma schedule_twice_offline_no_row : ~ schedule_twice_always_one_row.
Proof.
  intro H.
  destruct (H (wall_clock 0) (wall_clock 1000)
              (schedule_request "0xabc" "celo") (schedule_request "0xabc" "celo")
              (offline empty_store) "0xabc" "celo"
              eq_refl eq_refl eq_refl eq_refl eq_refl eq_refl)
    as (r & Hr).
  - unfold pk_auto_claim_schedule. simpl. constructor.
  - discriminate Hr.
Qed.
